(** * The gradient-descent training loop of [3_Custom_Model_and_Layer.ipynb]

    A shallow embedding of the notebook's [train] function and the
    properties of its control flow: running best loss, early termination,
    periodic progress lines and the in-place parameter update.

    Numbers.  Python's and the framework's floating-point scalars are
    modelled by exact rationals ([Q]) with their total order; integers
    ([max_epochs], [verbose], the loop index) by [Z].  Rounding and
    non-finite values (infinities, NaN) are outside the model.

    Tensors.  A tensor is the flat list of its elements; element-wise
    operations pair elements positionally, which is the framework's
    behaviour on operands of one shape.  The exceptions the framework
    raises on other operands are outside the model.

    Collaborators.  The forward pass of the model and the gradient of
    the loss are functions supplied by the caller ([Model]); [train]
    computes the loss, keeps the best loss, decides on termination,
    prints and updates.

    Effects.  The model's variables live in a store that [assign_add]
    mutates by position, and every call into the framework as well as
    every [print] is appended to a chronological trace. *)

From Stdlib Require Import ZArith QArith Qabs Lia Bool.
From Stdlib Require Import Strings.String Strings.Ascii Numbers.DecimalString.
From Stdlib Require Import Numbers.DecimalZ.
From stdpp Require Import base list.

Local Open Scope Z_scope.

(** ** Scalars *)

(** [a < b] on scalars, as a boolean. *)
Definition Qlt_bool (a b : Q) : bool := negb (Qle_bool b a).

(** Truth value of a number: zero is falsy, everything else truthy. *)
Definition Q_truthy (q : Q) : bool := negb (Qeq_bool q 0).
Definition Z_truthy (z : Z) : bool := negb (z =? 0).

(** ** Tensors *)

Definition tensor := list Q.

(** [a - b], element-wise. *)
Definition t_sub (a b : tensor) : tensor := zip_with Qminus a b.

(** [tf.square]. *)
Definition t_square (a : tensor) : tensor := (λ v, v * v)%Q <$> a.

Definition t_sum (a : tensor) : Q := foldr Qplus 0%Q a.

(** [tf.reduce_mean] over all elements. *)
Definition t_reduce_mean (a : tensor) : Q :=
  (t_sum a / inject_Z (Z.of_nat (length a)))%Q.

(** [c * a] for a Python scalar [c]. *)
Definition t_scale (c : Q) (a : tensor) : tensor := Qmult c <$> a.

(** [a + b], element-wise; the new value stored by [assign_add]. *)
Definition t_add (a b : tensor) : tensor := zip_with Qplus a b.

(** ** Printed lines *)

Inductive line :=
| Progress (it : Z) (loss : Q)
| Terminated.

Definition is_progress (l : line) : bool :=
  match l with Progress _ _ => true | Terminated => false end.

(** [str(it)] *)
Definition str_int (z : Z) : string := NilZero.string_of_int (Z.to_int z).

(** Nearest integer, ties to even: the rounding of float formatting. *)
Definition round_half_even (q : Q) : Z :=
  let n := Qnum q in
  let d := Z.pos (Qden q) in
  let f := n / d in
  let r := n mod d in
  if 2 * r <? d then f
  else if d <? 2 * r then f + 1
  else if Z.even f then f else f + 1.

Fixpoint fill_string (n : nat) (fill : ascii) (s : string) : string :=
  match n with
  | O => s
  | S k => String fill (fill_string k fill s)
  end.

(** [str.rjust]: pad on the left up to [width] characters. *)
Definition rjust (width : nat) (fill : ascii) (s : string) : string :=
  fill_string (width - String.length s) fill s.

(** ['{:5.4f}'.format(v)]: sign, integer part, four decimals, right
    justified in five columns. *)
Definition format_5_4f (v : Q) : string :=
  let s := round_half_even (Qabs v * 10000)%Q in
  let digits := rjust 4 "0"%char (str_int (s mod 10000)) in
  let body := (str_int (s / 10000) ++ "." ++ digits)%string in
  rjust 5 " "%char (if Qlt_bool v 0 then String "-"%char body else body).

(** The number the digits of [format_5_4f v] denote, sign apart. *)
Definition shown_magnitude (v : Q) : Q :=
  (inject_Z (round_half_even (Qabs v * 10000)) / 10000)%Q.

(** [int(s)]: the integer a string of decimal digits denotes, for
    reading printed numbers back. *)
Definition read_int (s : string) : option Z :=
  Z.of_int <$> NilZero.int_of_string s.

Definition render (l : line) : string :=
  match l with
  | Progress it loss =>
      ("mse loss at iteration " ++ str_int it ++ " is " ++ format_5_4f loss)%string
  | Terminated => "terminated as loss less than minimal tolerance"%string
  end.

(** ** The framework: store, trace, model and gradient tape *)

(** What the run does to the outside, in order. *)
Inductive event :=
| EvCall                                   (* model(x) *)
| EvPrint (l : line)                       (* print(...) *)
| EvGradient                               (* tape.gradient(loss, model.variables) *)
| EvAssignAdd (i : nat) (delta : tensor).  (* model.variables[i].assign_add(delta) *)

Record world := World {
  variables : list tensor;   (* current values of model.variables, by position *)
  trace : list event
}.

Definition emit (e : event) (w : world) : world :=
  World (variables w) (trace w ++ [e]).

Definition print (l : line) (w : world) : world := emit (EvPrint l) w.

(** The two collaborators [train] relies on and does not implement: the
    forward pass of the model at given variable values, and the gradient
    of the loss with respect to each variable for a forward pass recorded
    at given variable values. *)
Record Model := {
  call : list tensor -> tensor -> tensor;
  loss_gradient : list tensor -> tensor -> tensor -> list tensor
}.

(** A tape holds the variable values read while it was recording. *)
Record GradientTape := Tape { watched : list tensor }.

Definition tape_gradient (m : Model) (tape : GradientTape) (x y : tensor) : list tensor :=
  loss_gradient m (watched tape) x y.

(** [variables.assign_add(delta)] on the variable at position [i]. *)
Definition assign_add (i : nat) (delta : tensor) (w : world) : world :=
  World (alter (λ v, t_add v delta) i (variables w))
        (trace w ++ [EvAssignAdd i delta]).

(** The printed lines of a trace. *)
Definition printed (tr : list event) : list line :=
  omap (λ e, match e with EvPrint l => Some l | _ => None end) tr.

Definition is_call (e : event) : bool :=
  match e with EvCall => true | _ => false end.

Definition is_gradient (e : event) : bool :=
  match e with EvGradient => true | _ => false end.

Definition is_assign (e : event) : bool :=
  match e with EvAssignAdd _ _ => true | _ => false end.

Definition count (p : event -> bool) (tr : list event) : nat :=
  length (List.filter p tr).

(** Passes through the loop body: each one starts with the forward pass. *)
Definition iterations (tr : list event) : nat := count is_call tr.

(** ** The function [train] *)

Inductive control := Break | Continue.

(** Locals of [train] that outlive an iteration. *)
Record frame := Frame {
  best_loss : option Q;
  it : option Z
}.

(** Values a call can hand back to its caller. *)
Inductive pyvalue :=
| PyNone
| PyFloat (q : Q)
| PyInt (z : Z)
| PyPair (a b : pyvalue).

Section Train.
Variables (x y : tensor) (model : Model).
Variables (learning_rate : Q) (max_epochs : Z) (min_tol : Q) (verbose : Z).

(** The [with tf.GradientTape() as tape:] block. *)
Definition forward (w : world) : Q * GradientTape * world :=
  let tape := Tape (variables w) in
  let y_hat := call model (variables w) x in
  let loss := t_reduce_mean (t_square (t_sub y y_hat)) in
  (loss, tape, emit EvCall w).

(** [if not best_loss or best_loss > loss.numpy(): best_loss = loss.numpy()] *)
Definition update_best (best : option Q) (loss : Q) : Q :=
  match best with
  | None => loss
  | Some b => if negb (Q_truthy b) || Qlt_bool loss b then loss else b
  end.

(** [for variables, grads in zip(model.variables, gradients):
       variables.assign_add(-learning_rate * grads)] *)
Definition apply_gradients (gradients : list tensor) (w : world) : world :=
  foldl (λ w' '(i, grads), assign_add i (t_scale (- learning_rate) grads) w')
        w (zip (seq 0 (length (variables w))) gradients).

(** One pass through the body of the [for] loop. *)
Definition train_body (i : Z) (best : option Q) (w : world)
  : control * Q * world :=
  let '(loss, tape, w1) := forward w in
  let best' := update_best best loss in
  if Qlt_bool best' min_tol then
    (Break, best', if Z_truthy verbose then print Terminated w1 else w1)
  else
    let w2 := if Z_truthy verbose && negb (Z_truthy (i mod verbose))
              then print (Progress i loss) w1 else w1 in
    let gradients := tape_gradient model tape x y in
    let w3 := emit EvGradient w2 in
    (Continue, best', apply_gradients gradients w3).

(** The loop over [range(max_epochs)], [n] indices left, [i] the next. *)
Fixpoint train_loop (n : nat) (i : Z) (fr : frame) (w : world) : frame * world :=
  match n with
  | O => (fr, w)
  | S n' =>
      let '(c, best', w') := train_body i (best_loss fr) w in
      let fr' := Frame (Some best') (Some i) in
      match c with
      | Break => (fr', w')
      | Continue => train_loop n' (i + 1) fr' w'
      end
  end.

(** The locals and the world when the loop is left. *)
Definition train_exit (w : world) : frame * world :=
  train_loop (Z.to_nat max_epochs) 0 (Frame None None) w.

(** [train(x, y, model, learning_rate, max_epochs, min_tol, verbose)]:
    the body has no [return] statement. *)
Definition train (w : world) : pyvalue * world :=
  (PyNone, snd (train_exit w)).

End Train.

Arguments forward x y model w : assert.
Arguments update_best best loss : assert.
Arguments apply_gradients learning_rate gradients w : assert.

(** ** The run, iteration by iteration

    The values the loop goes through when no termination check fires:
    the variables at the start of iteration [k], the loss computed
    there and the best loss before and after its update. *)

(** Variable values after the update loop, position by position;
    variables beyond the gradient list are not reached by [zip]. *)
Fixpoint sgd (learning_rate : Q) (vs gradients : list tensor) : list tensor :=
  match vs, gradients with
  | v :: vs', g :: gs' =>
      t_add v (t_scale (- learning_rate) g) :: sgd learning_rate vs' gs'
  | _, _ => vs
  end.

(** The [assign_add] calls of one update loop, from position [base]. *)
Fixpoint assign_events (learning_rate : Q) (base : nat) (vs gradients : list tensor)
  : list event :=
  match vs, gradients with
  | _ :: vs', g :: gs' =>
      EvAssignAdd base (t_scale (- learning_rate) g)
        :: assign_events learning_rate (S base) vs' gs'
  | _, _ => []
  end.

Section Run.
Variables (x y : tensor) (model : Model).
Variables (learning_rate : Q) (min_tol : Q) (verbose : Z).
Variable vs0 : list tensor.

Definition loss_of (vs : list tensor) : Q :=
  t_reduce_mean (t_square (t_sub y (call model vs x))).

Definition descend (vs : list tensor) : list tensor :=
  sgd learning_rate vs (loss_gradient model vs x y).

Fixpoint vars_at (k : nat) : list tensor :=
  match k with
  | O => vs0
  | S k' => descend (vars_at k')
  end.

Definition loss_at (k : nat) : Q := loss_of (vars_at k).

Fixpoint best_before (k : nat) : option Q :=
  match k with
  | O => None
  | S k' => Some (update_best (best_before k') (loss_at k'))
  end.

Definition best_at (k : nat) : Q := update_best (best_before k) (loss_at k).

(** The termination check of iteration [k]. *)
Definition fires (k : nat) : bool := Qlt_bool (best_at k) min_tol.

(** First iteration among [k, k+1, ..., k+n-1] whose check fires,
    [k+n] when none does. *)
Fixpoint first_firing (n k : nat) : nat :=
  match n with
  | O => k
  | S n' => if fires k then k else first_firing n' (S k)
  end.

(** [verbose and not (it % verbose)] *)
Definition logs (i : Z) : bool :=
  Z_truthy verbose && negb (Z_truthy (i mod verbose)).

Definition progress_events (k : nat) : list event :=
  if logs (Z.of_nat k) then [EvPrint (Progress (Z.of_nat k) (loss_at k))] else [].

(** Events of an iteration whose check does not fire. *)
Definition pass_events (k : nat) : list event :=
  EvCall :: progress_events k ++ EvGradient
    :: assign_events learning_rate 0 (vars_at k) (loss_gradient model (vars_at k) x y).

(** Events of the iteration whose check fires. *)
Definition stop_events : list event :=
  EvCall :: (if Z_truthy verbose then [EvPrint Terminated] else []).

End Run.

(** The terminating iteration of a run: the one whose check fires, or
    [max_epochs] when the range is exhausted. *)
Definition stop_iter x y model learning_rate (max_epochs : Z) min_tol vs0 : nat :=
  first_firing x y model learning_rate min_tol vs0 (Z.to_nat max_epochs) 0.

(** The iterations [0, verbose, 2 * verbose, ...] below [t]; none when
    [verbose] is zero. *)
Definition logged_iterations (verbose : Z) (t : nat) : list nat :=
  let v := Z.to_nat verbose in
  if Z_truthy verbose
  then (λ j, j * v)%nat <$> seq 0 ((t + v - 1) / v)
  else [].

(** Events of a whole call started at the variable values [vs0]: the
    iterations before the terminating one, then the terminating one when
    it lies inside the range. *)
Definition call_events x y model learning_rate (max_epochs : Z) min_tol verbose vs0
  : list event :=
  let t := stop_iter x y model learning_rate max_epochs min_tol vs0 in
  concat (pass_events x y model learning_rate verbose vs0 <$> seq 0 t)
  ++ (if (t <? Z.to_nat max_epochs)%nat then stop_events verbose else []).

(** Last index the loop variable takes when the loop is entered at
    iteration [k] with [n >= 1] indices left. *)
Definition last_index x y model learning_rate min_tol vs0 (n k : nat) : nat :=
  Nat.min (first_firing x y model learning_rate min_tol vs0 n k) (k + n - 1).

(** ** The variant that tests the current loss

    [train] with the termination check written as [loss < min_tol]
    instead of [best_loss < min_tol]; everything else as in [train]. *)

Section TrainCurrentLoss.
Variables (x y : tensor) (model : Model).
Variables (learning_rate : Q) (max_epochs : Z) (min_tol : Q) (verbose : Z).

Definition train_body_current_loss (i : Z) (best : option Q) (w : world)
  : control * Q * world :=
  let '(loss, tape, w1) := forward x y model w in
  let best' := update_best best loss in
  if Qlt_bool loss min_tol then
    (Break, best', if Z_truthy verbose then print Terminated w1 else w1)
  else
    let w2 := if Z_truthy verbose && negb (Z_truthy (i mod verbose))
              then print (Progress i loss) w1 else w1 in
    let gradients := tape_gradient model tape x y in
    let w3 := emit EvGradient w2 in
    (Continue, best', apply_gradients learning_rate gradients w3).

Fixpoint train_loop_current_loss (n : nat) (i : Z) (fr : frame) (w : world)
  : frame * world :=
  match n with
  | O => (fr, w)
  | S n' =>
      let '(c, best', w') := train_body_current_loss i (best_loss fr) w in
      let fr' := Frame (Some best') (Some i) in
      match c with
      | Break => (fr', w')
      | Continue => train_loop_current_loss n' (i + 1) fr' w'
      end
  end.

Definition train_current_loss_exit (w : world) : frame * world :=
  train_loop_current_loss (Z.to_nat max_epochs) 0 (Frame None None) w.

Definition train_current_loss (w : world) : pyvalue * world :=
  (PyNone, snd (train_current_loss_exit w)).

End TrainCurrentLoss.

(** A best loss carried into an iteration has survived the check of the
    iteration before: it is unset or not below the tolerance. *)
Definition survived (min_tol : Q) (best : option Q) : Prop :=
  forall b, best = Some b -> Qlt_bool b min_tol = false.

(** ** Reading the final state off the returned value

    The value handed back by [train] determines the locals the loop ended
    with, for every call. *)
Definition returns_training_state : Prop :=
  exists decode : pyvalue -> frame,
    forall x y model learning_rate max_epochs min_tol verbose w,
      decode (fst (train x y model learning_rate max_epochs min_tol verbose w))
      = fst (train_exit x y model learning_rate max_epochs min_tol verbose w).

(** ** Concrete models *)

(** First element of the first variable: the weight of a one-weight model. *)
Definition weight (vs : list tensor) : Q :=
  match vs with
  | (w :: _) :: _ => w
  | _ => 0%Q
  end.

(** [y_hat = w * x] with the exact gradient of the mean squared error,
    [mean (2 * x * (w * x - y))]. *)
Definition line_model : Model := {|
  call vs x := Qmult (weight vs) <$> x;
  loss_gradient vs x y :=
    [[t_reduce_mean (zip_with (λ xi yi, 2 * xi * (weight vs * xi - yi))%Q x y)]]
|}.

(** First element of the second variable: the bias of the second
    [LinearModel] of the notebook. *)
Definition bias (vs : list tensor) : Q :=
  match vs with
  | _ :: (b :: _) :: _ => b
  | _ => 0%Q
  end.

(** [y_hat = w * x + b], two variables, with the exact gradients
    [mean (2 * x * (w * x + b - y))] and [mean (2 * (w * x + b - y))]. *)
Definition affine_model : Model := {|
  call vs x := (λ xi, weight vs * xi + bias vs)%Q <$> x;
  loss_gradient vs x y :=
    [[t_reduce_mean
        (zip_with (λ xi yi, 2 * xi * (weight vs * xi + bias vs - yi))%Q x y)];
     [t_reduce_mean
        (zip_with (λ xi yi, 2 * (weight vs * xi + bias vs - yi))%Q x y)]]
|}.

(** [y_hat = w] with a gradient provider that answers [-100] whatever
    the residual: the loss can vanish while the gradient does not. *)
Definition pushed_model : Model := {|
  call vs x := [weight vs];
  loss_gradient vs x y := [[- (100 # 1)]%Q]
|}.

(** Inputs on the line [y = 2 * x]. *)
Definition sample_x : tensor := [1; 2; 3]%Q.
Definition sample_y : tensor := [2; 4; 6]%Q.

(** A world whose model holds the single weight [w]. *)
Definition one_weight (w : Q) : world := World [[w]] [].

(** A world whose model holds a weight and a bias. *)
Definition weight_and_bias (w b : Q) : world := World [[w]; [b]] [].

(** For contrast with the update loop of [train]: a loop that requests
    the gradients again before each [assign_add], from the variables as
    the earlier assignments left them. *)
Definition apply_gradients_interleaved
           (x y : tensor) (model : Model) (learning_rate : Q) (w : world) : world :=
  foldl (λ w' i,
           match loss_gradient model (variables w') x y !! i with
           | Some grads =>
               assign_add i (t_scale (- learning_rate) grads) (emit EvGradient w')
           | None => w'
           end)
        w (seq 0 (length (variables w))).

(** The events a run adds to the trace it started from. *)
Definition run_events (w w' : world) : list event :=
  drop (length (trace w)) (trace w').

(** ** Further readings of a call *)

(** [train(x, y, model)]: the call with the defaults of the signature,
    [learning_rate=.01, max_epochs=10000, min_tol=1e-3, verbose=1000]. *)
Definition train_defaults (x y : tensor) (model : Model) (w : world)
  : pyvalue * world :=
  train x y model 0.01%Q 10000 0.001%Q 1000 w.

(** The variable values a call ends with, found from the losses alone:
    descend until the loss is below the tolerance or the epochs are
    used up. *)
Fixpoint settle (x y : tensor) (model : Model) (learning_rate min_tol : Q)
         (n : nat) (vs : list tensor) : list tensor :=
  match n with
  | O => vs
  | S n' =>
      if Qlt_bool (loss_of x y model vs) min_tol then vs
      else settle x y model learning_rate min_tol n'
                  (descend x y model learning_rate vs)
  end.

(** ** Rank-2 tensors and [tf.matmul] *)

(** A rank-2 tensor: its rows and the number of columns, which the shape
    records also when there is no row. *)
Record matrix := Matrix {
  ncols : nat;
  mrows : list tensor
}.

Definition nrows (a : matrix) : nat := length (mrows a).

(** Every row has [ncols] elements. *)
Definition well_formed (a : matrix) : Prop :=
  Forall (λ r, length r = ncols a) (mrows a).

(** A row times the rows of a matrix: the sum of the rows, each scaled by
    the element of the row at its position; [n] is the width. *)
Definition row_times (n : nat) (r : tensor) (rows : list tensor) : tensor :=
  foldr (λ '(c, br) acc, t_add (t_scale c br) acc) (replicate n 0%Q) (zip r rows).

(** The product of two matrices whose inner dimensions agree. *)
Definition mm (a b : matrix) : matrix :=
  Matrix (ncols b) ((λ r, row_times (ncols b) r (mrows b)) <$> mrows a).

(** [tf.matmul(a, b)]: raises unless the columns of [a] are as many as
    the rows of [b]. *)
Definition matmul (a b : matrix) : option matrix :=
  if decide (ncols a = nrows b) then Some (mm a b) else None.

(** ** The models and the layer of the notebook *)

(** The first [LinearModel]: one weight matrix;
    [call(x) = tf.matmul(x, self.w)]. *)
Definition LinearModel_call (w x : matrix) : option matrix := matmul x w.

(** [a + b] for a rank-0 [b]: added to every element. *)
Definition m_add_scalar (a : matrix) (b : Q) : matrix :=
  Matrix (ncols a) ((λ r : list Q, (λ v, v + b)%Q <$> r) <$> mrows a).

(** [a + b] for a rank-1 [b] of [ncols a] elements: added to every row. *)
Definition m_add_row (a : matrix) (b : tensor) : matrix :=
  Matrix (ncols a) ((λ r, t_add r b) <$> mrows a).

(** The second [LinearModel]: a weight matrix and a scalar bias;
    [call(x) = tf.matmul(x, self.w) + self.b]. *)
Definition LinearModel_bias_call (w : matrix) (b : Q) (x : matrix) : option matrix :=
  (λ o, m_add_scalar o b) <$> matmul x w.

(** A matrix of [d] rows and [u] columns from its elements. *)
Definition fill (d u : nat) (f : nat -> nat -> Q) : matrix :=
  Matrix u ((λ i, f i <$> seq 0 u) <$> seq 0 d).

(** The layer [Linear]: [units] and [use_bias] from the constructor, the
    values the weight initializer will draw, and the weights once
    [build] has run. *)
Record Linear := {
  units : nat;
  use_bias : bool;
  initializer : nat -> nat -> Q;
  weights : option (matrix * option tensor)
}.

(** [Linear(units, use_bias)] *)
Definition Linear_init (u : nat) (bias : bool) (init : nat -> nat -> Q) : Linear :=
  {| units := u; use_bias := bias; initializer := init; weights := None |}.

(** [build(input_shape)]: [w] of shape [(input_shape[-1], units)] and,
    with [use_bias], [b] of shape [(units)] filled with zeros. *)
Definition Linear_build (input_cols : nat) (l : Linear) : Linear :=
  {| units := units l; use_bias := use_bias l; initializer := initializer l;
     weights := Some (fill input_cols (units l) (initializer l),
                      if use_bias l then Some (replicate (units l) 0%Q) else None) |}.

(** [call(x)]: [tf.matmul(x, self.w)], plus [self.b] with [use_bias]. *)
Definition Linear_call (w : matrix) (b : option tensor) (x : matrix) : option matrix :=
  match matmul x w with
  | Some output =>
      Some (match b with Some b' => m_add_row output b' | None => output end)
  | None => None
  end.

(** Applying the layer to data: [build] the first time, then [call]. *)
Definition Linear_apply (l : Linear) (x : matrix) : option (matrix * Linear) :=
  let l' := match weights l with
            | Some _ => l
            | None => Linear_build (ncols x) l
            end in
  match weights l' with
  | Some (w, b) => (λ o, (o, l')) <$> Linear_call w b x
  | None => None
  end.

(** The variables of a model are matrices and vectors. *)
Inductive variable :=
| VMatrix (m : matrix)
| VVector (v : tensor).

Definition Linear_variables (l : Linear) : list variable :=
  match weights l with
  | Some (w, Some b) => [VMatrix w; VVector b]
  | Some (w, None) => [VMatrix w]
  | None => []
  end.

(** The stacked [LinearModel]:
    [self.model = [Linear(units, use_bias) for units in num_units]]. *)
Definition Stacked_init (num_units : list nat) (bias : bool)
           (init : nat -> nat -> nat -> Q) : list Linear :=
  imap (λ k u, Linear_init u bias (init k)) num_units.

(** [for layer in self.model: x = layer(x)]; the layers come back as the
    call left them. *)
Fixpoint Stacked_call (layers : list Linear) (x : matrix)
  : option (matrix * list Linear) :=
  match layers with
  | [] => Some (x, [])
  | l :: rest =>
      match Linear_apply l x with
      | Some (o, l') =>
          match Stacked_call rest o with
          | Some (out, rest') => Some (out, l' :: rest')
          | None => None
          end
      | None => None
      end
  end.

(** [model.variables] *)
Definition Stacked_variables (layers : list Linear) : list variable :=
  layers ≫= Linear_variables.

(** [tf.matmul] on variables: defined on two matrices. *)
Definition variable_matmul (a b : variable) : option variable :=
  match a, b with
  | VMatrix a', VMatrix b' => VMatrix <$> matmul a' b'
  | _, _ => None
  end.

(** [reduce(tf.matmul, vs)]: raises on an empty list. *)
Definition reduce_matmul (vs : list variable) : option variable :=
  match vs with
  | [] => None
  | v :: rest => foldl (λ acc v', acc ≫= (λ a, variable_matmul a v')) (Some v) rest
  end.

(** The shape of a variable. *)
Definition variable_shape (v : variable) : list nat :=
  match v with
  | VMatrix m => [nrows m; ncols m]
  | VVector b => [length b]
  end.

(** The shapes [build] gives the variables of a stack of layers fed
    with [d] columns. *)
Fixpoint built_shapes (d : nat) (num_units : list nat) (bias : bool) : list (list nat) :=
  match num_units with
  | [] => []
  | u :: rest =>
      [d; u] :: (if bias then [[u]] else []) ++ built_shapes u rest bias
  end.

(** Matrices that can be multiplied in a row, after [c] columns. *)
Fixpoint chained (c : nat) (ws : list matrix) : Prop :=
  match ws with
  | [] => True
  | w :: rest => c = nrows w /\ chained (ncols w) rest
  end.

(** Small matrices: [1 x 2] and [2 x 2]. *)
Definition sample_a : matrix := Matrix 2 [[1; 2]%Q].
Definition sample_b : matrix := Matrix 2 [[3; 1]%Q; [0; 2]%Q].

(** The weights [build] gives a stack of layers fed with [d] columns,
    and the layers once built. *)
Fixpoint built_weights (d : nat) (num_units : list nat)
         (init : nat -> nat -> nat -> Q) : list matrix :=
  match num_units with
  | [] => []
  | u :: rest => fill d u (init 0%nat) :: built_weights u rest (λ k, init (S k))
  end.

Fixpoint built_layers (d : nat) (num_units : list nat) (bias : bool)
         (init : nat -> nat -> nat -> Q) : list Linear :=
  match num_units with
  | [] => []
  | u :: rest =>
      Linear_build d (Linear_init u bias (init 0%nat))
        :: built_layers u rest bias (λ k, init (S k))
  end.

(** * Properties *)

(** ** Formatting of progress lines *)

Example render_2000 :
  render (Progress 2000 (15 # 10000)) = "mse loss at iteration 2000 is 0.0015"%string.
Proof. reflexivity. Qed.

Example render_rounds :
  render (Progress 0 (396477049 # 10000000)) = "mse loss at iteration 0 is 39.6477"%string
  /\ format_5_4f (1 # 32) = "0.0312"%string
  /\ format_5_4f (3 # 32) = "0.0938"%string
  /\ format_5_4f (- (1 # 100000)) = "-0.0000"%string.
Proof. repeat split; reflexivity. Qed.

Lemma string_length_app (s1 s2 : string) :
  String.length (s1 ++ s2) = (String.length s1 + String.length s2)%nat.
Proof.
  induction s1 as [|c s1 IH]; simpl; [reflexivity|]. rewrite IH. reflexivity.
Qed.

Lemma fill_string_length (n : nat) (fill : ascii) (s : string) :
  String.length (fill_string n fill s) = (n + String.length s)%nat.
Proof.
  induction n as [|n IH]; simpl; [reflexivity|]. rewrite IH. reflexivity.
Qed.

(** A string that fills the width is left as it is. *)
Lemma rjust_wide (width : nat) (fill : ascii) (s : string) :
  (width <= String.length s)%nat -> rjust width fill s = s.
Proof.
  intros H. unfold rjust.
  replace (width - String.length s)%nat with 0%nat by lia. reflexivity.
Qed.

Lemma str_int_nonempty (z : Z) : (1 <= String.length (str_int z))%nat.
Proof.
  unfold str_int. destruct (Z.to_int z) as [d|d]; destruct d; simpl; lia.
Qed.

(** Numbers below ten thousand have at most four digits: the fraction
    is always printed on four columns. *)
Lemma fraction_digits (m : Z) :
  0 <= m < 10000 -> String.length (rjust 4 "0"%char (str_int m)) = 4%nat.
Proof.
  intros Hm.
  assert (Hall : forallb
                   (λ n, String.length (rjust 4 "0"%char (str_int (Z.of_nat n))) =? 4)%nat
                   (seq 0 (Z.to_nat 10000)) = true) by (vm_compute; reflexivity).
  rewrite forallb_forall in Hall.
  specialize (Hall (Z.to_nat m)).
  rewrite Z2Nat.id in Hall by lia.
  apply Nat.eqb_eq. apply Hall. apply in_seq. lia.
Qed.

(** The text of a formatted loss: optional sign, integer part, point,
    exactly four decimals. *)
Lemma format_5_4f_shape (v : Q) :
  exists int_part decimals : string,
    format_5_4f v
    = ((if Qlt_bool v 0 then "-" else "") ++ int_part ++ "." ++ decimals)%string
    /\ (1 <= String.length int_part)%nat
    /\ String.length decimals = 4%nat.
Proof.
  unfold format_5_4f.
  set (s := round_half_even (Qabs v * 10000)).
  exists (str_int (s / 10000)), (rjust 4 "0"%char (str_int (s mod 10000))).
  pose proof (str_int_nonempty (s / 10000)) as Hi.
  pose proof (fraction_digits (s mod 10000) ltac:(apply Z.mod_pos_bound; lia)) as Hd.
  split; [|split; [exact Hi|exact Hd]].
  destruct (Qlt_bool v 0); cbn [append]; apply rjust_wide;
    cbn [String.length]; rewrite !string_length_app;
    cbn [String.length]; rewrite Hd; lia.
Qed.

(** Rounding moves a number by at most one half. *)
Lemma round_half_even_close (q : Q) :
  (Qabs (inject_Z (round_half_even q) - q) <= 1 # 2)%Q.
Proof.
  destruct q as [n d]. unfold round_half_even; cbn [Qnum Qden].
  pose proof (Z.div_mod n (Z.pos d) ltac:(lia)) as Hn.
  pose proof (Z.mod_pos_bound n (Z.pos d) ltac:(lia)) as Hr.
  set (f := n / Z.pos d) in *. set (r := n mod Z.pos d) in *.
  apply Qabs_Qle_condition.
  destruct (Z.ltb_spec (2 * r) (Z.pos d)) as [H1|H1];
    [|destruct (Z.ltb_spec (Z.pos d) (2 * r)) as [H2|H2];
      [|destruct (Z.even f)]];
    unfold Qle, Qminus, Qplus, Qopp, inject_Z; cbn [Qnum Qden];
    split; nia.
Qed.

(** The digits of a formatted loss denote its magnitude to within half a
    unit of the fourth decimal. *)
Lemma shown_magnitude_close (v : Q) :
  (Qabs (shown_magnitude v - Qabs v) <= 5 # 100000)%Q.
Proof.
  unfold shown_magnitude.
  pose proof (round_half_even_close (Qabs v * 10000)) as H.
  set (r := inject_Z (round_half_even (Qabs v * 10000))) in *.
  assert (E : (r / 10000 - Qabs v == (r - Qabs v * 10000) * (1 # 10000))%Q) by field.
  rewrite E, Qabs_Qmult.
  change (Qabs (1 # 10000)) with (1 # 10000)%Q.
  apply Qle_trans with (y := ((1 # 2) * (1 # 10000))%Q).
  - apply Qmult_le_compat_r; [exact H|discriminate].
  - discriminate.
Qed.

(** Reading a printed integer gives the integer back. *)
Lemma read_int_str_int (z : Z) : read_int (str_int z) = Some z.
Proof.
  unfold read_int, str_int.
  rewrite NilZero.isi.
  - cbn [fmap option_fmap option_map]. f_equal. apply DecimalZ.of_to.
  - destruct z as [|p|p]; cbn [Z.to_int]; [discriminate| |discriminate].
    intros [= H]. exact (DecimalPos.Unsigned.to_uint_nonnil p H).
  - destruct z as [|p|p]; cbn [Z.to_int]; [discriminate|discriminate|].
    intros [= H]. exact (DecimalPos.Unsigned.to_uint_nonnil p H).
Qed.

(** The four decimals, zeros in front included, read back as the number
    they were printed from. *)
Lemma read_int_fraction (m : Z) :
  0 <= m < 10000 -> read_int (rjust 4 "0"%char (str_int m)) = Some m.
Proof.
  intros Hm.
  assert (Hall : forallb
                   (λ n, match read_int (rjust 4 "0"%char (str_int (Z.of_nat n))) with
                         | Some r => r =? Z.of_nat n
                         | None => false
                         end)
                   (seq 0 (Z.to_nat 10000)) = true) by (vm_compute; reflexivity).
  rewrite forallb_forall in Hall.
  specialize (Hall (Z.to_nat m)).
  rewrite Z2Nat.id in Hall by lia.
  destruct (read_int (rjust 4 "0"%char (str_int m))) as [r|].
  - f_equal. apply Z.eqb_eq. apply Hall. apply in_seq. lia.
  - exfalso. enough (false = true) by discriminate. apply Hall. apply in_seq. lia.
Qed.

Lemma round_half_even_nonneg (q : Q) : (0 <= q)%Q -> 0 <= round_half_even q.
Proof.
  destruct q as [n d]. unfold Qle, round_half_even; cbn [Qnum Qden]. intros Hq.
  assert (Hn : 0 <= n) by lia.
  pose proof (Z.div_pos n (Z.pos d) Hn ltac:(lia)) as Hf.
  destruct (2 * (n mod Z.pos d) <? Z.pos d); [exact Hf|].
  destruct (Z.pos d <? 2 * (n mod Z.pos d)); [lia|].
  destruct (Z.even (n / Z.pos d)); lia.
Qed.

(** The digits of a formatted loss: the integer part and the four
    decimals read back as the magnitude of the loss in ten-thousandths,
    rounded to the nearest, ties to even; the number they denote is
    within half a unit of the fourth decimal of the magnitude. *)
Lemma format_5_4f_digits (v : Q) :
  exists (int_part decimals : string) (I D : Z),
    format_5_4f v
    = ((if Qlt_bool v 0 then "-" else "") ++ int_part ++ "." ++ decimals)%string
    /\ (1 <= String.length int_part)%nat
    /\ String.length decimals = 4%nat
    /\ read_int int_part = Some I
    /\ read_int decimals = Some D
    /\ 0 <= I
    /\ 0 <= D < 10000
    /\ I * 10000 + D = round_half_even (Qabs v * 10000)
    /\ (Qabs (inject_Z I + inject_Z D / 10000 - Qabs v) <= 5 # 100000)%Q.
Proof.
  pose proof (shown_magnitude_close v) as Hclose.
  unfold shown_magnitude in Hclose. unfold format_5_4f.
  assert (Hs : 0 <= round_half_even (Qabs v * 10000)).
  { apply round_half_even_nonneg. apply Qmult_le_0_compat; [apply Qabs_nonneg|discriminate]. }
  set (s := round_half_even (Qabs v * 10000)) in *.
  pose proof (Z.mod_pos_bound s 10000 ltac:(lia)) as Hmod.
  pose proof (Z.div_mod s 10000 ltac:(lia)) as Hdm.
  exists (str_int (s / 10000)), (rjust 4 "0"%char (str_int (s mod 10000))),
    (s / 10000), (s mod 10000).
  pose proof (str_int_nonempty (s / 10000)) as Hi.
  pose proof (fraction_digits (s mod 10000) Hmod) as Hd.
  split.
  { destruct (Qlt_bool v 0); cbn [append]; apply rjust_wide;
      cbn [String.length]; rewrite !string_length_app;
      cbn [String.length]; rewrite Hd; lia. }
  split; [exact Hi|]. split; [exact Hd|].
  split; [apply read_int_str_int|]. split; [apply read_int_fraction; exact Hmod|].
  split; [apply Z.div_pos; lia|]. split; [exact Hmod|]. split; [lia|].
  assert (E : (inject_Z (s / 10000) + inject_Z (s mod 10000) / 10000
               == inject_Z s / 10000)%Q).
  { rewrite Hdm at 3. rewrite inject_Z_plus, inject_Z_mult.
    change (inject_Z 10000) with 10000%Q. field. }
  rewrite E. exact Hclose.
Qed.

(** ** The update loop *)

Section UpdateLoop.
Variable learning_rate : Q.

(** One [assign_add], on the variable behind [done]. *)
Lemma assign_add_behind (done : list tensor) (v : tensor) (vs : list tensor)
      (delta : tensor) (tr : list event) :
  assign_add (length done) delta (World (done ++ v :: vs) tr)
  = World (done ++ t_add v delta :: vs) (tr ++ [EvAssignAdd (length done) delta]).
Proof.
  unfold assign_add; cbn [variables trace]. f_equal.
  replace (length done) with (length done + 0)%nat by lia.
  rewrite alter_app_r. reflexivity.
Qed.

(** The loop over [zip(model.variables, gradients)] started behind the
    variables [done] that it has already passed. *)
Lemma update_loop_from (vs gradients done : list tensor) (tr : list event) :
  foldl (λ w' '(i, grads), assign_add i (t_scale (- learning_rate) grads) w')
        (World (done ++ vs) tr)
        (zip (seq (length done) (length vs)) gradients)
  = World (done ++ sgd learning_rate vs gradients)
          (tr ++ assign_events learning_rate (length done) vs gradients).
Proof.
  revert gradients done tr.
  induction vs as [|v vs IH]; intros [|g gs] done tr;
    cbn [length seq zip zip_with foldl sgd assign_events];
    rewrite ?app_nil_r; try reflexivity.
  rewrite assign_add_behind.
  specialize (IH gs (done ++ [t_add v (t_scale (- learning_rate) g)])
                 (tr ++ [EvAssignAdd (length done) (t_scale (- learning_rate) g)])).
  rewrite length_app in IH; cbn [length] in IH.
  replace (length done + 1)%nat with (S (length done)) in IH by lia.
  rewrite <- !app_assoc in IH. exact IH.
Qed.

Lemma apply_gradients_spec (gradients vs : list tensor) (tr : list event) :
  apply_gradients learning_rate gradients (World vs tr)
  = World (sgd learning_rate vs gradients)
          (tr ++ assign_events learning_rate 0 vs gradients).
Proof.
  exact (update_loop_from vs gradients [] tr).
Qed.

Lemma sgd_length (vs gradients : list tensor) :
  length (sgd learning_rate vs gradients) = length vs.
Proof.
  revert gradients; induction vs as [|v vs IH]; intros [|g gs]; simpl; auto.
Qed.

(** Position by position: a variable that has a gradient moves by
    [- learning_rate * gradient], the others keep their value. *)
Lemma sgd_lookup (vs gradients : list tensor) (j : nat) :
  sgd learning_rate vs gradients !! j
  = match gradients !! j with
    | Some g => (λ v, t_add v (t_scale (- learning_rate) g)) <$> vs !! j
    | None => vs !! j
    end.
Proof.
  revert gradients j; induction vs as [|v vs IH]; intros [|g gs] [|j]; simpl;
    try reflexivity.
  - destruct (gs !! j); reflexivity.
  - apply IH.
Qed.

Lemma assign_events_lookup (vs gradients : list tensor) (base j : nat) :
  assign_events learning_rate base vs gradients !! j
  = match vs !! j, gradients !! j with
    | Some _, Some g => Some (EvAssignAdd (base + j) (t_scale (- learning_rate) g))
    | _, _ => None
    end.
Proof.
  revert gradients base j; induction vs as [|v vs IH]; intros [|g gs] base [|j];
    simpl; try reflexivity.
  - destruct (vs !! j); reflexivity.
  - rewrite Nat.add_0_r; reflexivity.
  - rewrite IH. replace (S base + j)%nat with (base + S j)%nat by lia.
    reflexivity.
Qed.

End UpdateLoop.

(** The number of variables is the same at every iteration of a run. *)
Lemma vars_at_length x y model learning_rate vs0 (k : nat) :
  length (vars_at x y model learning_rate vs0 k) = length vs0.
Proof.
  induction k as [|k IH]; [reflexivity|].
  cbn [vars_at]. unfold descend. rewrite sgd_length. exact IH.
Qed.

(** ** One pass through the loop body *)

Section Body.
Variables (x y : tensor) (model : Model).
Variables (learning_rate : Q) (min_tol : Q) (verbose : Z).

Local Abbreviation body := (train_body x y model learning_rate min_tol verbose).
Local Abbreviation loss := (loss_of x y model).
Local Abbreviation next := (descend x y model learning_rate).

(** The check fires: the pass ends right after the forward pass, with
    the notice when [verbose] is truthy. *)
Lemma body_break (i : Z) (best : option Q) (vs : list tensor) (tr : list event) :
  Qlt_bool (update_best best (loss vs)) min_tol = true ->
  body i best (World vs tr)
  = (Break, update_best best (loss vs), World vs (tr ++ stop_events verbose)).
Proof.
  intros Hfire. unfold train_body, forward; simpl.
  fold (loss_of x y model vs). rewrite Hfire.
  unfold stop_events, print, emit; simpl.
  destruct (Z_truthy verbose); simpl; rewrite <- ?app_assoc; reflexivity.
Qed.

(** The check does not fire: progress line when due, then the
    gradients of the recorded forward pass, then the update loop. *)
Lemma body_continue (i : Z) (best : option Q) (vs : list tensor) (tr : list event) :
  Qlt_bool (update_best best (loss vs)) min_tol = false ->
  body i best (World vs tr)
  = (Continue, update_best best (loss vs),
     World (next vs)
           (tr ++ EvCall
               :: (if logs verbose i then [EvPrint (Progress i (loss vs))] else [])
               ++ EvGradient
               :: assign_events learning_rate 0 vs (loss_gradient model vs x y))).
Proof.
  intros Hpass. unfold train_body, forward; simpl.
  fold (loss_of x y model vs). rewrite Hpass.
  unfold tape_gradient, logs, print, emit; simpl.
  destruct (Z_truthy verbose && negb (Z_truthy (i mod verbose))); simpl;
    rewrite apply_gradients_spec; unfold descend;
    rewrite <- !app_assoc; reflexivity.
Qed.

End Body.

(** ** The whole loop *)

Section Loop.
Variables (x y : tensor) (model : Model).
Variables (learning_rate : Q) (min_tol : Q) (verbose : Z).
Variable vs0 : list tensor.

Local Abbreviation loop := (train_loop x y model learning_rate min_tol verbose).
Local Abbreviation vars := (vars_at x y model learning_rate vs0).
Local Abbreviation before := (best_before x y model learning_rate vs0).
Local Abbreviation best := (best_at x y model learning_rate vs0).
Local Abbreviation fire := (fires x y model learning_rate min_tol vs0).
Local Abbreviation stop := (first_firing x y model learning_rate min_tol vs0).
Local Abbreviation last := (last_index x y model learning_rate min_tol vs0).
Local Abbreviation passes := (pass_events x y model learning_rate verbose vs0).

Lemma first_firing_bounds (n k : nat) :
  (k <= stop n k <= k + n)%nat.
Proof.
  revert k; induction n as [|n IH]; intros k; simpl.
  - lia.
  - destruct (fire k); [lia|]. specialize (IH (S k)). lia.
Qed.

(** Before the terminating iteration no check fires. *)
Lemma first_firing_before (n k j : nat) :
  (k <= j < stop n k)%nat -> fire j = false.
Proof.
  revert k; induction n as [|n IH]; intros k; simpl.
  - lia.
  - destruct (fire k) eqn:Hk; [lia|].
    intros Hj. destruct (decide (j = k)) as [->|Hne]; [exact Hk|].
    apply (IH (S k)). lia.
Qed.

(** At the terminating iteration, when inside the range, it does. *)
Lemma first_firing_fires (n k : nat) :
  (stop n k < k + n)%nat -> fire (stop n k) = true.
Proof.
  revert k; induction n as [|n IH]; intros k; simpl.
  - lia.
  - destruct (fire k) eqn:Hk; [intros _; exact Hk|].
    intros H. apply IH. lia.
Qed.

Lemma first_firing_none (n k : nat) :
  (forall j, (k <= j < k + n)%nat -> fire j = false) ->
  stop n k = (k + n)%nat.
Proof.
  revert k; induction n as [|n IH]; intros k Hall; simpl.
  - lia.
  - rewrite (Hall k) by lia. rewrite IH; [lia|].
    intros j Hj. apply Hall. lia.
Qed.

(** The loop entered at iteration [k] of the run with [n] indices left. *)
Lemma train_loop_run (n k : nat) (fr : frame) (tr : list event) :
  best_loss fr = before k ->
  loop n (Z.of_nat k) fr (World (vars k) tr)
  = (match n with
     | O => fr
     | S _ => Frame (Some (best (last n k)))
                    (Some (Z.of_nat (last n k)))
     end,
     World (vars (stop n k))
           (tr ++ concat (passes <$> seq k (stop n k - k))
               ++ (if (stop n k <? k + n)%nat
                   then stop_events verbose else []))).
Proof.
  revert k fr tr; induction n as [|n IH]; intros k fr tr Hbest.
  - simpl. rewrite Nat.sub_diag, Nat.add_0_r, Nat.ltb_irrefl; simpl.
    rewrite app_nil_r. reflexivity.
  - cbn [train_loop first_firing]. rewrite Hbest.
    unfold last_index; cbn [first_firing].
    destruct (fire k) eqn:Hk.
    + rewrite body_break by exact Hk.
      rewrite Nat.sub_diag. replace (Nat.min k (k + S n - 1)) with k by lia.
      replace (k <? k + S n)%nat with true by (symmetry; apply Nat.ltb_lt; lia).
      reflexivity.
    + rewrite body_continue by exact Hk.
      replace (Z.of_nat k + 1) with (Z.of_nat (S k)) by lia.
      change (descend x y model learning_rate (vars k)) with (vars (S k)).
      rewrite IH by reflexivity.
      pose proof (first_firing_bounds n (S k)) as Hb.
      replace (stop n (S k) - k)%nat
        with (S (stop n (S k) - S k)) by lia.
      replace (stop n (S k) <? S k + n)%nat
        with (stop n (S k) <? k + S n)%nat
        by (f_equal; lia).
      cbn [seq fmap list_fmap concat].
      rewrite <- !app_assoc. f_equal.
      destruct n as [|n'].
      * cbn [first_firing].
        replace (Nat.min (S k) (k + 1 - 1)) with k by lia. reflexivity.
      * unfold last_index.
        replace (S k + S n' - 1)%nat with (k + S (S n') - 1)%nat by lia.
        reflexivity.
Qed.

End Loop.

(** ** The whole call *)

Section Call.
Variables (x y : tensor) (model : Model).
Variables (learning_rate : Q) (max_epochs : Z) (min_tol : Q) (verbose : Z).

Local Abbreviation N := (Z.to_nat max_epochs).
Local Abbreviation T vs := (stop_iter x y model learning_rate max_epochs min_tol vs).

Lemma train_exit_run (vs : list tensor) (tr : list event) :
  train_exit x y model learning_rate max_epochs min_tol verbose (World vs tr)
  = (match N with
     | O => Frame None None
     | S _ =>
         let l := last_index x y model learning_rate min_tol vs N 0 in
         Frame (Some (best_at x y model learning_rate vs l)) (Some (Z.of_nat l))
     end,
     World (vars_at x y model learning_rate vs (T vs))
           (tr ++ call_events x y model learning_rate max_epochs min_tol verbose vs)).
Proof.
  unfold train_exit, call_events, stop_iter.
  change 0 with (Z.of_nat 0).
  change vs with (vars_at x y model learning_rate vs 0) at 1.
  rewrite train_loop_run by reflexivity.
  rewrite Nat.sub_0_r. reflexivity.
Qed.

Lemma run_events_extend (vs vs' : list tensor) (tr evs : list event) :
  run_events (World vs tr) (World vs' (tr ++ evs)) = evs.
Proof.
  unfold run_events; simpl. apply drop_app_length.
Qed.

Lemma train_events (w : world) :
  run_events w (snd (train x y model learning_rate max_epochs min_tol verbose w))
  = call_events x y model learning_rate max_epochs min_tol verbose (variables w).
Proof.
  destruct w as [vs tr]. unfold train; simpl.
  rewrite train_exit_run; simpl. apply run_events_extend.
Qed.

Lemma train_variables (w : world) :
  variables (snd (train x y model learning_rate max_epochs min_tol verbose w))
  = vars_at x y model learning_rate (variables w) (T (variables w)).
Proof.
  destruct w as [vs tr]. unfold train; simpl.
  rewrite train_exit_run; reflexivity.
Qed.

End Call.

(** ** Counting events and reading printed lines *)

Lemma count_app (p : event -> bool) (l1 l2 : list event) :
  count p (l1 ++ l2) = (count p l1 + count p l2)%nat.
Proof.
  unfold count. rewrite List.filter_app, length_app. reflexivity.
Qed.

Lemma count_assign_events (p : event -> bool) lr base vs gs :
  (forall i d, p (EvAssignAdd i d) = false) ->
  count p (assign_events lr base vs gs) = 0%nat.
Proof.
  intros Hp. revert base gs.
  induction vs as [|v vs IH]; intros base [|g gs]; simpl; try reflexivity.
  unfold count in *; simpl. rewrite Hp. apply IH.
Qed.

Lemma count_assign_events_assign lr base vs gs :
  count is_assign (assign_events lr base vs gs) = Nat.min (length vs) (length gs).
Proof.
  revert base gs.
  induction vs as [|v vs IH]; intros base [|g gs]; simpl; try reflexivity.
  unfold count in *; simpl. f_equal. apply IH.
Qed.

Lemma count_concat_const {A} (p : event -> bool) (f : A -> list event) (l : list A) c :
  (forall a, count p (f a) = c) ->
  count p (concat (f <$> l)) = (length l * c)%nat.
Proof.
  intros Hc. induction l as [|a l IH]; [reflexivity|].
  cbn [fmap list_fmap concat length].
  rewrite count_app, Hc, IH. reflexivity.
Qed.

Lemma printed_app (l1 l2 : list event) :
  printed (l1 ++ l2) = printed l1 ++ printed l2.
Proof. apply omap_app. Qed.

Lemma printed_assign_events lr base vs gs :
  printed (assign_events lr base vs gs) = [].
Proof.
  revert base gs.
  induction vs as [|v vs IH]; intros base [|g gs]; simpl; try reflexivity.
  apply IH.
Qed.

(** Cut a pass at its two framework calls. *)
Ltac cut_pass :=
  change (EvCall :: ?l) with ([EvCall] ++ l);
  change (EvGradient :: ?l) with ([EvGradient] ++ l).

Section PassEvents.
Variables (x y : tensor) (model : Model).
Variables (learning_rate : Q) (verbose : Z) (vs0 : list tensor).

Local Abbreviation passes := (pass_events x y model learning_rate verbose vs0).

Lemma count_progress_events (p : event -> bool) (k : nat) :
  (forall l, p (EvPrint l) = false) ->
  count p (progress_events x y model learning_rate verbose vs0 k) = 0%nat.
Proof.
  intros Hp. unfold progress_events.
  destruct (logs verbose (Z.of_nat k)); [unfold count; simpl; rewrite Hp|];
    reflexivity.
Qed.

Lemma pass_events_calls (k : nat) : count is_call (passes k) = 1%nat.
Proof.
  unfold pass_events.
  cut_pass.
  rewrite !count_app, count_progress_events, count_assign_events by reflexivity.
  reflexivity.
Qed.

Lemma pass_events_gradients (k : nat) : count is_gradient (passes k) = 1%nat.
Proof.
  unfold pass_events.
  cut_pass.
  rewrite !count_app, count_progress_events, count_assign_events by reflexivity.
  reflexivity.
Qed.

Lemma pass_events_printed (k : nat) :
  printed (passes k)
  = if logs verbose (Z.of_nat k)
    then [Progress (Z.of_nat k) (loss_at x y model learning_rate vs0 k)] else [].
Proof.
  unfold pass_events.
  cut_pass.
  rewrite !printed_app, printed_assign_events. unfold progress_events.
  destruct (logs verbose (Z.of_nat k)); reflexivity.
Qed.

End PassEvents.

Lemma stop_events_printed (verbose : Z) :
  printed (stop_events verbose) = if Z_truthy verbose then [Terminated] else [].
Proof. unfold stop_events. destruct (Z_truthy verbose); reflexivity. Qed.

Lemma stop_events_count (p : event -> bool) (verbose : Z) :
  (forall l, p (EvPrint l) = false) ->
  count p (stop_events verbose) = if p EvCall then 1%nat else 0%nat.
Proof.
  intros Hp. unfold stop_events, count.
  destruct (Z_truthy verbose); simpl; rewrite ?Hp; destruct (p EvCall); reflexivity.
Qed.

(** ** Scalars and the loss *)

Lemma Qlt_bool_iff (a b : Q) : Qlt_bool a b = true <-> (a < b)%Q.
Proof.
  unfold Qlt_bool. rewrite negb_true_iff. split.
  - intros H. apply Qnot_le_lt. intros Hle.
    apply Qle_bool_iff in Hle. congruence.
  - intros H. destruct (Qle_bool b a) eqn:E; [|reflexivity].
    apply Qle_bool_iff in E. exfalso. exact (Qlt_not_le _ _ H E).
Qed.

Lemma Qlt_bool_false (a b : Q) : Qlt_bool a b = false <-> (b <= a)%Q.
Proof.
  unfold Qlt_bool. rewrite negb_false_iff. apply Qle_bool_iff.
Qed.

Lemma sum_squares_nonneg (a : tensor) : (0 <= t_sum (t_square a))%Q.
Proof.
  induction a as [|v a IH]; simpl.
  - apply Qle_refl.
  - change 0%Q with (0 + 0)%Q. apply Qplus_le_compat; [|exact IH].
    unfold Qle, Qmult; simpl. nia.
Qed.

(** A mean of squares is never negative. *)
Lemma reduce_mean_square_nonneg (a : tensor) :
  (0 <= t_reduce_mean (t_square a))%Q.
Proof.
  unfold t_reduce_mean, Qdiv.
  apply Qmult_le_0_compat; [apply sum_squares_nonneg|].
  apply Qinv_le_0_compat. unfold Qle; simpl. lia.
Qed.

Lemma loss_nonneg x y model vs : (0 <= loss_of x y model vs)%Q.
Proof. apply reduce_mean_square_nonneg. Qed.

(** The best loss after an update is the current loss or the old best. *)
Lemma update_best_cases (best : option Q) (loss : Q) :
  update_best best loss = loss \/ best = Some (update_best best loss).
Proof.
  destruct best as [b|]; simpl; [|left; reflexivity].
  destruct (negb (Q_truthy b) || Qlt_bool loss b); [left|right]; reflexivity.
Qed.

Lemma update_best_nonneg (best : option Q) (loss : Q) :
  (0 <= loss)%Q -> (forall b, best = Some b -> (0 <= b)%Q) ->
  (0 <= update_best best loss)%Q.
Proof.
  intros Hl Hb. destruct (update_best_cases best loss) as [E|E].
  - rewrite E. exact Hl.
  - apply Hb. exact E.
Qed.

Lemma best_at_nonneg x y model learning_rate vs0 (k : nat) :
  (0 <= best_at x y model learning_rate vs0 k)%Q.
Proof.
  unfold best_at. induction k as [|k IH];
    apply update_best_nonneg; try apply loss_nonneg.
  - discriminate.
  - intros b [= <-]. exact IH.
Qed.

(** ** Progress lines *)

(** Rounding up [t / v] one step further. *)
Lemma ceil_div_succ (t v : nat) :
  (0 < v)%nat ->
  ((S t + v - 1) / v = (t + v - 1) / v + (if t mod v =? 0 then 1 else 0))%nat.
Proof.
  intros Hv.
  pose proof (Nat.div_mod_eq t v) as Ht.
  pose proof (Nat.mod_upper_bound t v ltac:(lia)) as Hr.
  set (q := (t / v)%nat) in *. set (r := (t mod v)%nat) in *.
  destruct (Nat.eqb_spec r 0) as [E|E].
  - rewrite <- (Nat.div_unique (t + v - 1) v q (v - 1)) by nia.
    symmetry. apply (Nat.div_unique _ v (q + 1) 0); nia.
  - rewrite <- (Nat.div_unique (t + v - 1) v (q + 1) (r - 1)) by nia.
    symmetry. rewrite Nat.add_0_r.
    apply (Nat.div_unique _ v (q + 1) r); nia.
Qed.

Lemma ceil_div_multiple (t v : nat) :
  (0 < v)%nat -> (t mod v = 0)%nat -> ((t + v - 1) / v * v = t)%nat.
Proof.
  intros Hv Hr.
  pose proof (Nat.div_mod_eq t v) as Ht. rewrite Hr in Ht.
  rewrite <- (Nat.div_unique (t + v - 1) v (t / v) (v - 1)) by nia.
  nia.
Qed.

(** The multiples of [v] below [t], by test and by enumeration. *)
Lemma filter_multiples (t v : nat) :
  (0 < v)%nat ->
  List.filter (λ k, k mod v =? 0)%nat (seq 0 t)
  = (λ j, j * v)%nat <$> seq 0 ((t + v - 1) / v).
Proof.
  intros Hv. induction t as [|t IH].
  - replace ((0 + v - 1) / v)%nat with 0%nat; [reflexivity|].
    symmetry. apply Nat.div_small. lia.
  - rewrite seq_S, List.filter_app, IH, ceil_div_succ by exact Hv.
    cbn [List.filter Nat.add].
    destruct (Nat.eqb_spec (t mod v) 0) as [E|E].
    + rewrite seq_app, fmap_app. cbn [seq fmap list_fmap Nat.add].
      rewrite (ceil_div_multiple t v Hv E). reflexivity.
    + rewrite Nat.add_0_r, app_nil_r. reflexivity.
Qed.

Lemma logs_multiple (verbose : Z) (k : nat) :
  0 < verbose ->
  logs verbose (Z.of_nat k) = (k mod Z.to_nat verbose =? 0)%nat.
Proof.
  intros Hv. unfold logs, Z_truthy.
  replace (verbose =? 0) with false by (symmetry; apply Z.eqb_neq; lia).
  cbn [negb andb]. rewrite negb_involutive.
  rewrite <- (Z2Nat.id verbose) at 1 by lia.
  rewrite <- Nat2Z.inj_mod.
  destruct (Nat.eqb_spec (k mod Z.to_nat verbose) 0) as [E|E].
  - rewrite E. reflexivity.
  - apply Z.eqb_neq. lia.
Qed.

Lemma filter_logs (verbose : Z) (t : nat) :
  0 <= verbose ->
  List.filter (λ k, logs verbose (Z.of_nat k)) (seq 0 t) = logged_iterations verbose t.
Proof.
  intros Hv. unfold logged_iterations.
  destruct (Z.eqb_spec verbose 0) as [->|Hne].
  - cbn [Z_truthy Z.eqb negb]. induction (seq 0 t) as [|k l IH]; [reflexivity|].
    cbn [List.filter]. unfold logs at 1. cbn [Z_truthy Z.eqb negb andb]. exact IH.
  - replace (Z_truthy verbose) with true
      by (unfold Z_truthy; symmetry; apply negb_true_iff, Z.eqb_neq; exact Hne).
    rewrite <- filter_multiples by lia.
    apply List.filter_ext. intros k. apply logs_multiple. lia.
Qed.

Section ProgressLines.
Variables (x y : tensor) (model : Model).
Variables (learning_rate : Q) (verbose : Z) (vs0 : list tensor).

Local Abbreviation progress k :=
  (Progress (Z.of_nat k) (loss_at x y model learning_rate vs0 k)).

(** The lines printed by consecutive passes. *)
Lemma passes_printed (a n : nat) :
  printed (concat (pass_events x y model learning_rate verbose vs0 <$> seq a n))
  = (λ k, progress k) <$> List.filter (λ k, logs verbose (Z.of_nat k)) (seq a n).
Proof.
  revert a. induction n as [|n IH]; intros a; [reflexivity|].
  cbn [seq fmap list_fmap concat List.filter].
  rewrite printed_app, pass_events_printed, IH.
  destruct (logs verbose (Z.of_nat a)); reflexivity.
Qed.

End ProgressLines.


(** What a whole call prints, for any [verbose]. *)
Lemma printed_call_events x y model learning_rate max_epochs min_tol verbose vs0 :
  let t := stop_iter x y model learning_rate max_epochs min_tol vs0 in
  printed (call_events x y model learning_rate max_epochs min_tol verbose vs0)
  = ((λ k, Progress (Z.of_nat k) (loss_at x y model learning_rate vs0 k))
       <$> List.filter (λ k, logs verbose (Z.of_nat k)) (seq 0 t))
    ++ (if Z_truthy verbose && (t <? Z.to_nat max_epochs)%nat
        then [Terminated] else []).
Proof.
  intros t. unfold call_events. fold t.
  rewrite printed_app, passes_printed. f_equal.
  destruct (t <? Z.to_nat max_epochs)%nat.
  - rewrite stop_events_printed. destruct (Z_truthy verbose); reflexivity.
  - rewrite andb_false_r. reflexivity.
Qed.

(** No progress line carries the index of the terminating iteration. *)
Lemma no_line_for_terminating_iteration
      x y model learning_rate max_epochs min_tol verbose vs0 (l : Q) :
  let t := stop_iter x y model learning_rate max_epochs min_tol vs0 in
  ~ In (Progress (Z.of_nat t) l)
       (printed (call_events x y model learning_rate max_epochs min_tol verbose vs0)).
Proof.
  intros t Hin. unfold t in Hin. rewrite printed_call_events in Hin. fold t in Hin.
  apply in_app_or in Hin. destruct Hin as [Hin|Hin].
  - apply list_elem_of_In, list_elem_of_fmap in Hin.
    destruct Hin as (k & Hk & Hmem). injection Hk as Hk _.
    apply list_elem_of_In, List.filter_In in Hmem. destruct Hmem as [Hmem _].
    apply in_seq in Hmem. lia.
  - destruct (Z_truthy verbose && (t <? Z.to_nat max_epochs)%nat); simpl in Hin.
    + destruct Hin as [Hin|[]]. discriminate Hin.
    + destruct Hin.
Qed.

(** * The claims *)

(** ** Returned value *)

(** C1 (as stated, refuted).  The value [train] returns does not carry
    the final state: two calls that end with different best losses and
    different iteration indices return the same value. *)
Lemma train_return_hides_state : ~ returns_training_state.
Proof.
  intros [decode Hdec].
  pose proof (Hdec sample_x sample_y line_model 0.1%Q 1 0.001%Q 1 (one_weight 0)) as H1.
  pose proof (Hdec sample_x sample_y line_model 0.1%Q 2 0.001%Q 1 (one_weight 0)) as H2.
  cbn [train fst] in H1, H2. rewrite H1 in H2.
  apply (f_equal it) in H2. vm_compute in H2. discriminate H2.
Qed.

(** C1 (amended).  Every call of [train] finishes and returns [None];
    the best loss and the iteration index stay local to the call, and
    what the caller can observe is the world the loop left: the updated
    variables and the trace. *)
Theorem train_returns_none x y model learning_rate max_epochs min_tol verbose w :
  train x y model learning_rate max_epochs min_tol verbose w
  = (PyNone,
     World (vars_at x y model learning_rate (variables w)
              (stop_iter x y model learning_rate max_epochs min_tol (variables w)))
           (trace w
            ++ call_events x y model learning_rate max_epochs min_tol verbose
                 (variables w))).
Proof.
  destruct w as [vs tr]. unfold train. rewrite train_exit_run. reflexivity.
Qed.

(** ** Non-positive tolerance *)

Section NonPositiveTolerance.
Variables (x y : tensor) (model : Model).
Variables (learning_rate : Q) (max_epochs : Z) (min_tol : Q) (verbose : Z).
Hypothesis tolerance : (min_tol <= 0)%Q.

Lemma never_fires vs0 (k : nat) :
  fires x y model learning_rate min_tol vs0 k = false.
Proof.
  unfold fires. apply Qlt_bool_false.
  apply Qle_trans with (y := 0%Q); [exact tolerance|apply best_at_nonneg].
Qed.

Lemma stop_iter_exhausts vs0 :
  stop_iter x y model learning_rate max_epochs min_tol vs0 = Z.to_nat max_epochs.
Proof.
  unfold stop_iter. rewrite first_firing_none; [reflexivity|].
  intros j _. apply never_fires.
Qed.

End NonPositiveTolerance.

(** C3.  With [min_tol <= 0] no termination check fires (the loss is a
    mean of squares, hence never negative): the call goes through the
    loop body exactly [max_epochs] times, each time up to the gradient
    request, and prints no termination notice. *)
Theorem nonpositive_tolerance_runs_all_epochs
        x y model learning_rate max_epochs min_tol verbose w :
  (min_tol <= 0)%Q ->
  let w' := snd (train x y model learning_rate max_epochs min_tol verbose w) in
  stop_iter x y model learning_rate max_epochs min_tol (variables w)
  = Z.to_nat max_epochs
  /\ iterations (run_events w w') = Z.to_nat max_epochs
  /\ count is_gradient (run_events w w') = Z.to_nat max_epochs
  /\ ~ In Terminated (printed (run_events w w')).
Proof.
  intros Htol w'. subst w'. rewrite train_events. unfold call_events.
  rewrite stop_iter_exhausts by exact Htol.
  rewrite Nat.ltb_irrefl, app_nil_r.
  split; [reflexivity|]. unfold iterations.
  rewrite (count_concat_const is_call _ _ 1%nat) by apply pass_events_calls.
  rewrite (count_concat_const is_gradient _ _ 1%nat) by apply pass_events_gradients.
  rewrite length_seq, Nat.mul_1_r.
  split; [reflexivity|split; [reflexivity|]].
  generalize (Z.to_nat max_epochs) as n. intros n.
  generalize 0%nat as k. induction n as [|n IH]; intros k;
    cbn [seq fmap list_fmap concat].
  - intros [].
  - rewrite printed_app, pass_events_printed. intros Hin.
    apply in_app_or in Hin. destruct Hin as [Hin|Hin]; [|exact (IH _ Hin)].
    destruct (logs verbose (Z.of_nat k)); simpl in Hin.
    + destruct Hin as [Hin|[]]. discriminate Hin.
    + destruct Hin.
Qed.

Lemma nonpositive_tolerance_runs_all_epochs_witness :
  (0 <= 0)%Q
  /\ let w := one_weight 0 in
     let w' := snd (train sample_x sample_y line_model 0.1%Q 3 0%Q 1 w) in
     stop_iter sample_x sample_y line_model 0.1%Q 3 0%Q (variables w) = 3%nat
     /\ iterations (run_events w w') = 3%nat
     /\ count is_gradient (run_events w w') = 3%nat
     /\ ~ In Terminated (printed (run_events w w')).
Proof.
  assert (H : (0 <= 0)%Q) by (unfold Qle; simpl; lia).
  split; [exact H|].
  exact (nonpositive_tolerance_runs_all_epochs
           sample_x sample_y line_model 0.1%Q 3 0%Q 1 (one_weight 0) H).
Defined.

(** ** Termination in the first iteration *)

Lemma stop_iter_first x y model learning_rate max_epochs min_tol vs0 :
  0 < max_epochs ->
  (loss_of x y model vs0 < min_tol)%Q ->
  stop_iter x y model learning_rate max_epochs min_tol vs0 = 0%nat.
Proof.
  intros Hpos Hlow. unfold stop_iter.
  destruct (Z.to_nat max_epochs) as [|n] eqn:En; [lia|].
  cbn [first_firing]. unfold fires, best_at, loss_at.
  cbn [best_before vars_at update_best].
  apply Qlt_bool_iff in Hlow. rewrite Hlow. reflexivity.
Qed.

(** C4.  When the loss of iteration 0 is already below [min_tol], the
    call makes one pass through the loop body and prints at most one
    progress line; what it adds to the trace is the forward pass and,
    for truthy [verbose], the termination notice. *)
Theorem first_loss_below_tolerance_stops
        x y model learning_rate max_epochs min_tol verbose w :
  0 < max_epochs ->
  (loss_of x y model (variables w) < min_tol)%Q ->
  let w' := snd (train x y model learning_rate max_epochs min_tol verbose w) in
  iterations (run_events w w') = 1%nat
  /\ (length (List.filter is_progress (printed (run_events w w'))) <= 1)%nat
  /\ run_events w w' = stop_events verbose.
Proof.
  intros Hpos Hlow w'. subst w'. rewrite train_events. unfold call_events.
  rewrite stop_iter_first by assumption.
  replace (0 <? Z.to_nat max_epochs)%nat with true
    by (symmetry; apply Nat.ltb_lt; lia).
  cbn [seq fmap list_fmap concat app].
  unfold iterations. rewrite stop_events_count by reflexivity.
  rewrite stop_events_printed.
  destruct (Z_truthy verbose); simpl; repeat split; lia.
Qed.

Lemma first_loss_below_tolerance_stops_witness :
  0 < 10000
  /\ (loss_of sample_x sample_y line_model (variables (one_weight (19 # 10))) < 0.1)%Q
  /\ let w := one_weight (19 # 10) in
     let w' := snd (train sample_x sample_y line_model 0.1%Q 10000 0.1%Q 1000 w) in
     iterations (run_events w w') = 1%nat
     /\ (length (List.filter is_progress (printed (run_events w w'))) <= 1)%nat
     /\ run_events w w' = stop_events 1000.
Proof.
  assert (H1 : 0 < 10000) by lia.
  assert (H2 : (loss_of sample_x sample_y line_model
                        (variables (one_weight (19 # 10))) < 0.1)%Q)
    by (vm_compute; reflexivity).
  split; [exact H1|split; [exact H2|]].
  exact (first_loss_below_tolerance_stops
           sample_x sample_y line_model 0.1%Q 10000 0.1%Q 1000
           (one_weight (19 # 10)) H1 H2).
Defined.

(** ** The termination check *)

(** C5.  A pass through the loop body, at any index [i] (0 included) and
    from any state, tests the updated [best_loss] against [min_tol]
    right after the forward pass.  When the test succeeds the loop is
    left at once: nothing but the termination notice is printed, and
    that only for truthy [verbose]; no progress line of iteration [i]
    precedes it.  Otherwise the progress line, the gradients and the
    update follow and the loop goes on with [i + 1].  Hence no call of
    [train] prints a progress line for its terminating iteration. *)
Theorem termination_check_precedes_logging
        x y model learning_rate min_tol verbose
        (n : nat) (i : Z) (best : option Q) (j : option Z) (w : world) :
  let loss := loss_of x y model (variables w) in
  let best' := update_best best loss in
  let fr' := Frame (Some best') (Some i) in
  train_loop x y model learning_rate min_tol verbose (S n) i (Frame best j) w
  = (if Qlt_bool best' min_tol
    then (fr',
          World (variables w)
                (trace w ++ EvCall
                   :: (if Z_truthy verbose then [EvPrint Terminated] else [])))
    else train_loop x y model learning_rate min_tol verbose n (i + 1) fr'
           (World (descend x y model learning_rate (variables w))
                  (trace w ++ EvCall
                     :: (if Z_truthy verbose && negb (Z_truthy (i mod verbose))
                         then [EvPrint (Progress i loss)] else [])
                     ++ EvGradient
                     :: assign_events learning_rate 0 (variables w)
                          (loss_gradient model (variables w) x y))))
  /\ forall max_epochs l,
      let t := stop_iter x y model learning_rate max_epochs min_tol (variables w) in
      let w' := snd (train x y model learning_rate max_epochs min_tol verbose w) in
      ~ In (Progress (Z.of_nat t) l) (printed (run_events w w')).
Proof.
  intros loss best' fr'. subst loss best' fr'. split.
  - destruct w as [vs tr].
    cbn [train_loop best_loss variables trace].
    destruct (Qlt_bool (update_best best (loss_of x y model vs)) min_tol) eqn:Hc.
    + rewrite body_break by exact Hc. reflexivity.
    + rewrite body_continue by exact Hc. reflexivity.
  - intros max_epochs l t w'. subst w'. rewrite train_events.
    apply no_line_for_terminating_iteration.
Qed.

(** The test reads the best loss, not the loss of the pass: entered with
    a best loss below the tolerance, the body stops although its own
    loss is far above it. *)
Example check_reads_best_loss :
  let w := one_weight 0 in
  loss_of sample_x sample_y line_model (variables w) = (56 # 3)%Q
  /\ Qlt_bool (56 # 3) 0.001 = false
  /\ fst (train_body sample_x sample_y line_model 0.1%Q 0.001%Q 1 7
                     (Some 0.0005%Q) w) = (Break, 0.0005%Q).
Proof. vm_compute. repeat split. Qed.

(** ** The update step *)

Lemma Qmult_opp_l (a b : Q) : (- a * b)%Q = (- (a * b))%Q.
Proof.
  destruct a as [an ad], b as [bn bd]. unfold Qmult, Qopp; simpl.
  f_equal. lia.
Qed.

(** Adding [-learning_rate * g] is subtracting [learning_rate * g]. *)
Lemma t_add_neg_scale (p g : tensor) (learning_rate : Q) :
  t_add p (t_scale (- learning_rate) g) = t_sub p (t_scale learning_rate g).
Proof.
  unfold t_add, t_sub, t_scale.
  revert g; induction p as [|a p IH]; intros [|b g]; simpl; try reflexivity.
  rewrite IH. unfold Qminus. rewrite Qmult_opp_l. reflexivity.
Qed.

Lemma filter_assign_events learning_rate base vs gs :
  List.filter is_assign (assign_events learning_rate base vs gs)
  = assign_events learning_rate base vs gs.
Proof.
  revert base gs.
  induction vs as [|v vs IH]; intros base [|g gs]; simpl; try reflexivity.
  rewrite IH. reflexivity.
Qed.

Section Pass.
Variables (x y : tensor) (model : Model).
Variables (learning_rate : Q) (min_tol : Q) (verbose : Z).
Variables (i : Z) (best : option Q) (w : world).

Hypothesis passes :
  Qlt_bool (update_best best (loss_of x y model (variables w))) min_tol = false.

Local Abbreviation gradients := (loss_gradient model (variables w) x y).
Local Abbreviation w' :=
  (snd (train_body x y model learning_rate min_tol verbose i best w)).

Lemma pass_variables : variables w' = sgd learning_rate (variables w) gradients.
Proof.
  destruct w as [vs tr]. cbn [variables] in *.
  rewrite body_continue by exact passes. reflexivity.
Qed.

Lemma pass_run_events :
  run_events w w'
  = EvCall
      :: (if logs verbose i
          then [EvPrint (Progress i (loss_of x y model (variables w)))] else [])
      ++ EvGradient :: assign_events learning_rate 0 (variables w) gradients.
Proof.
  destruct w as [vs tr]. cbn [variables] in *.
  rewrite body_continue by exact passes. cbn [snd].
  apply run_events_extend.
Qed.

Lemma pass_assignments :
  List.filter is_assign (run_events w w')
  = assign_events learning_rate 0 (variables w) gradients.
Proof.
  rewrite pass_run_events. cbn [List.filter is_assign].
  rewrite List.filter_app. cbn [List.filter is_assign].
  rewrite filter_assign_events.
  destruct (logs verbose i); reflexivity.
Qed.

End Pass.

(** C7.  In a pass whose termination check does not fire, the update
    loop visits the variables in order of position and leaves at each
    position that has a gradient the value
    [parameter - learning_rate * gradient]; positions without a gradient
    keep their value.  With [learning_rate = 0.01], a parameter [1.0] and
    a gradient [2.0] the new value is [1.0 - 0.01 * 2.0 = 0.98]. *)
Theorem update_is_gradient_descent
        x y model learning_rate min_tol verbose (i : Z) (best : option Q) (w : world) :
  Qlt_bool (update_best best (loss_of x y model (variables w))) min_tol = false ->
  let gradients := loss_gradient model (variables w) x y in
  let w' := snd (train_body x y model learning_rate min_tol verbose i best w) in
  (forall j p g,
      variables w !! j = Some p -> gradients !! j = Some g ->
      variables w' !! j = Some (t_sub p (t_scale learning_rate g)))
  /\ (forall j, gradients !! j = None -> variables w' !! j = variables w !! j)
  /\ (forall j,
         List.filter is_assign (run_events w w') !! j
         = match variables w !! j, gradients !! j with
           | Some _, Some g => Some (EvAssignAdd j (t_scale (- learning_rate) g))
           | _, _ => None
           end)
  /\ variables (apply_gradients 0.01%Q [[2%Q]] (one_weight 1)) = [[0.98%Q]]
  /\ (1 - 0.01 * 2)%Q = 0.98%Q.
Proof.
  intros Hpass gradients w'. subst gradients w'.
  rewrite pass_variables, pass_assignments by exact Hpass.
  repeat split.
  - intros j p g Hp Hg. rewrite sgd_lookup, Hg, Hp. simpl.
    rewrite t_add_neg_scale. reflexivity.
  - intros j Hg. rewrite sgd_lookup, Hg. reflexivity.
  - intros j. rewrite assign_events_lookup. reflexivity.
Qed.

Lemma update_is_gradient_descent_witness :
  Qlt_bool (update_best None
              (loss_of sample_x sample_y affine_model (variables (weight_and_bias 0 0))))
           0.001%Q = false
  /\ let w := weight_and_bias 0 0 in
     let gradients := loss_gradient affine_model (variables w) sample_x sample_y in
     let w' := snd (train_body sample_x sample_y affine_model 0.1%Q 0.001%Q 1000 0 None w) in
     (forall j p g,
         variables w !! j = Some p -> gradients !! j = Some g ->
         variables w' !! j = Some (t_sub p (t_scale 0.1%Q g)))
     /\ (forall j, gradients !! j = None -> variables w' !! j = variables w !! j)
     /\ (forall j,
            List.filter is_assign (run_events w w') !! j
            = match variables w !! j, gradients !! j with
              | Some _, Some g => Some (EvAssignAdd j (t_scale (- 0.1%Q) g))
              | _, _ => None
              end)
     /\ variables (apply_gradients 0.01%Q [[2%Q]] (one_weight 1)) = [[0.98%Q]]
     /\ (1 - 0.01 * 2)%Q = 0.98%Q.
Proof.
  assert (H : Qlt_bool (update_best None
                          (loss_of sample_x sample_y affine_model
                                   (variables (weight_and_bias 0 0))))
                       0.001%Q = false) by (vm_compute; reflexivity).
  split; [exact H|].
  exact (update_is_gradient_descent
           sample_x sample_y affine_model 0.1%Q 0.001%Q 1000 0 None (weight_and_bias 0 0) H).
Defined.

(** C8.  In a pass whose termination check does not fire, the gradients
    are requested once, for the forward pass recorded at the variable
    values the pass started with, and before the first [assign_add];
    every update of the pass takes its increment from that one list, so
    the values after the pass are a function of the snapshot alone. *)
Theorem gradients_from_one_snapshot
        x y model learning_rate min_tol verbose (i : Z) (best : option Q) (w : world) :
  Qlt_bool (update_best best (loss_of x y model (variables w))) min_tol = false ->
  let snapshot := variables w in
  let gradients := loss_gradient model snapshot x y in
  let w' := snd (train_body x y model learning_rate min_tol verbose i best w) in
  (exists log,
      run_events w w'
      = (EvCall :: log) ++ EvGradient :: assign_events learning_rate 0 snapshot gradients
      /\ count is_assign (EvCall :: log) = 0%nat
      /\ count is_gradient (EvCall :: log) = 0%nat)
  /\ count is_gradient (run_events w w') = 1%nat
  /\ (forall j e,
         assign_events learning_rate 0 snapshot gradients !! j = Some e ->
         exists g, gradients !! j = Some g
                   /\ e = EvAssignAdd j (t_scale (- learning_rate) g))
  /\ variables w' = sgd learning_rate snapshot gradients.
Proof.
  intros Hpass snapshot gradients w'. subst snapshot gradients w'.
  rewrite pass_run_events, pass_variables by exact Hpass.
  split; [|split; [|split]].
  - exists (if logs verbose i
            then [EvPrint (Progress i (loss_of x y model (variables w)))] else []).
    split; [reflexivity|]. destruct (logs verbose i); split; reflexivity.
  - cut_pass.
    rewrite !count_app, count_assign_events by reflexivity.
    destruct (logs verbose i); reflexivity.
  - intros j e. rewrite assign_events_lookup.
    destruct (variables w !! j); [|discriminate].
    destruct (loss_gradient model (variables w) x y !! j) as [g|]; [|discriminate].
    intros [= <-]. exists g. split; reflexivity.
  - reflexivity.
Qed.

Lemma gradients_from_one_snapshot_witness :
  Qlt_bool (update_best None
              (loss_of sample_x sample_y affine_model (variables (weight_and_bias 0 0))))
           0.001%Q = false
  /\ let w := weight_and_bias 0 0 in
     let snapshot := variables w in
     let gradients := loss_gradient affine_model snapshot sample_x sample_y in
     let w' := snd (train_body sample_x sample_y affine_model 0.1%Q 0.001%Q 1 0 None w) in
     (exists log,
         run_events w w'
         = (EvCall :: log) ++ EvGradient :: assign_events 0.1%Q 0 snapshot gradients
         /\ count is_assign (EvCall :: log) = 0%nat
         /\ count is_gradient (EvCall :: log) = 0%nat)
     /\ count is_gradient (run_events w w') = 1%nat
     /\ (forall j e,
            assign_events 0.1%Q 0 snapshot gradients !! j = Some e ->
            exists g, gradients !! j = Some g
                      /\ e = EvAssignAdd j (t_scale (- 0.1%Q) g))
     /\ variables w' = sgd 0.1%Q snapshot gradients.
Proof.
  assert (H : Qlt_bool (update_best None
                          (loss_of sample_x sample_y affine_model
                                   (variables (weight_and_bias 0 0))))
                       0.001%Q = false) by (vm_compute; reflexivity).
  split; [exact H|].
  exact (gradients_from_one_snapshot
           sample_x sample_y affine_model 0.1%Q 0.001%Q 1 0 None (weight_and_bias 0 0) H).
Defined.

(** The snapshot matters: on the two-variable model, a loop that asks
    for the gradients again between the two assignments moves the bias
    elsewhere. *)
Example interleaved_update_differs :
  let w := weight_and_bias 0 0 in
  variables (snd (train_body sample_x sample_y affine_model 0.1%Q 0.001%Q 1 0 None w))
  = [[56 # 30]; [24 # 30]]%Q
  /\ variables (apply_gradients_interleaved sample_x sample_y affine_model 0.1%Q w)
     = [[56 # 30]; [43200 # 810000]]%Q
  /\ ~ (24 # 30 == 43200 # 810000)%Q.
Proof. vm_compute. repeat split. discriminate. Qed.

(** ** The terminating iteration *)

(** C9.  When the termination check fires at iteration [t] of a call,
    that iteration consists of the forward pass and the notice only: no
    gradient is requested and no variable assigned in it, so the call
    ends with the variable values iteration [t] started with and with
    one gradient request per earlier iteration.  In particular, a loss
    already below [min_tol] at iteration 0 (which forces [min_tol > 0])
    leaves every variable at its initial value. *)
Theorem early_termination_spares_parameters
        x y model learning_rate max_epochs min_tol verbose w :
  let t := stop_iter x y model learning_rate max_epochs min_tol (variables w) in
  let w' := snd (train x y model learning_rate max_epochs min_tol verbose w) in
  (t < Z.to_nat max_epochs)%nat ->
  run_events w w'
  = concat (pass_events x y model learning_rate verbose (variables w) <$> seq 0 t)
    ++ stop_events verbose
  /\ count is_gradient (stop_events verbose) = 0%nat
  /\ count is_assign (stop_events verbose) = 0%nat
  /\ iterations (run_events w w') = S t
  /\ count is_gradient (run_events w w') = t
  /\ variables w' = vars_at x y model learning_rate (variables w) t
  /\ ((loss_of x y model (variables w) < min_tol)%Q ->
      (0 < min_tol)%Q /\ variables w' = variables w).
Proof.
  intros t w' Hearly. subst w'.
  rewrite train_events, train_variables. unfold call_events. fold t.
  apply Nat.ltb_lt in Hearly. rewrite Hearly.
  split; [reflexivity|].
  split; [apply stop_events_count; reflexivity|].
  split; [apply stop_events_count; reflexivity|].
  unfold iterations. rewrite !count_app.
  rewrite (count_concat_const is_call _ _ 1%nat) by apply pass_events_calls.
  rewrite (count_concat_const is_gradient _ _ 1%nat) by apply pass_events_gradients.
  rewrite !stop_events_count by reflexivity. rewrite length_seq. cbn [is_call is_gradient].
  split; [lia|]. split; [lia|]. split; [reflexivity|].
  intros Hlow. split.
  - apply Qle_lt_trans with (y := loss_of x y model (variables w));
      [apply loss_nonneg|exact Hlow].
  - apply Nat.ltb_lt in Hearly.
    assert (Ht : t = 0%nat) by (apply stop_iter_first; [lia|exact Hlow]).
    rewrite Ht. reflexivity.
Qed.

Lemma early_termination_spares_parameters_witness :
  let x := sample_x in
  let y := sample_y in
  let w := one_weight (19 # 10) in
  let t := stop_iter x y line_model 0.1%Q 100 0.1%Q (variables w) in
  let w' := snd (train x y line_model 0.1%Q 100 0.1%Q 1000 w) in
  (t < Z.to_nat 100)%nat
  /\ (loss_of x y line_model (variables w) < 0.1)%Q
  /\ run_events w w'
     = concat (pass_events x y line_model 0.1%Q 1000 (variables w) <$> seq 0 t)
       ++ stop_events 1000
  /\ count is_gradient (stop_events 1000) = 0%nat
  /\ count is_assign (stop_events 1000) = 0%nat
  /\ iterations (run_events w w') = S t
  /\ count is_gradient (run_events w w') = t
  /\ variables w' = vars_at x y line_model 0.1%Q (variables w) t
  /\ (0 < 0.1)%Q /\ variables w' = variables w.
Proof.
  intros x y w t w'.
  assert (H : (t < Z.to_nat 100)%nat) by (vm_compute; lia).
  assert (Hlow : (loss_of x y line_model (variables w) < 0.1)%Q)
    by (vm_compute; reflexivity).
  pose proof (early_termination_spares_parameters
                x y line_model 0.1%Q 100 0.1%Q 1000 w H)
    as (He & Hg0 & Ha0 & Hi & Hg & Hv & Hsame).
  split; [exact H|]. split; [exact Hlow|].
  split; [exact He|]. split; [exact Hg0|]. split; [exact Ha0|].
  split; [exact Hi|]. split; [exact Hg|]. split; [exact Hv|].
  exact (Hsame Hlow).
Defined.

(** ** Testing the current loss instead *)

Section CurrentLoss.
Variables (x y : tensor) (model : Model).
Variables (learning_rate : Q) (min_tol : Q) (verbose : Z).

(** The running best falls below the tolerance in the pass whose own
    loss does. *)
Lemma checks_agree (best : option Q) (loss : Q) :
  survived min_tol best ->
  Qlt_bool (update_best best loss) min_tol = Qlt_bool loss min_tol.
Proof.
  intros Hs. destruct best as [b|]; simpl; [|reflexivity].
  destruct (negb (Q_truthy b) || Qlt_bool loss b) eqn:E; [reflexivity|].
  apply orb_false_elim in E as [_ E].
  specialize (Hs b eq_refl). rewrite Hs. symmetry.
  apply Qlt_bool_false. apply Qlt_bool_false in Hs, E.
  exact (Qle_trans _ _ _ Hs E).
Qed.

Lemma bodies_agree (i : Z) (best : option Q) (w : world) :
  survived min_tol best ->
  train_body_current_loss x y model learning_rate min_tol verbose i best w
  = train_body x y model learning_rate min_tol verbose i best w.
Proof.
  intros Hs. unfold train_body_current_loss, train_body, forward.
  rewrite (checks_agree best _ Hs). reflexivity.
Qed.

Lemma body_continue_survived (i : Z) (best : option Q) (w w' : world) (b' : Q) :
  train_body x y model learning_rate min_tol verbose i best w = (Continue, b', w') ->
  survived min_tol (Some b').
Proof.
  unfold train_body, forward.
  destruct (Qlt_bool _ min_tol) eqn:E; intros [= <- _].
  intros b [= <-]. exact E.
Qed.

Lemma loops_agree (n : nat) (i : Z) (fr : frame) (w : world) :
  survived min_tol (best_loss fr) ->
  train_loop_current_loss x y model learning_rate min_tol verbose n i fr w
  = train_loop x y model learning_rate min_tol verbose n i fr w.
Proof.
  revert i fr w. induction n as [|n IH]; intros i fr w Hs; [reflexivity|].
  cbn [train_loop_current_loss train_loop].
  rewrite bodies_agree by exact Hs.
  destruct (train_body x y model learning_rate min_tol verbose i (best_loss fr) w)
    as [[c b'] w'] eqn:E.
  destruct c; [reflexivity|].
  apply IH. exact (body_continue_survived _ _ _ _ _ E).
Qed.

End CurrentLoss.

(** C10.  For a positive tolerance, the variant of [train] whose check
    reads the loss of the current pass behaves as [train] does: both
    leave the loop at the same index with the same best loss, append the
    same events (hence print the same lines) and leave the same variable
    values, and both return [None]. *)
Theorem current_loss_check_is_equivalent
        x y model learning_rate max_epochs min_tol verbose w :
  (0 < min_tol)%Q ->
  train_current_loss_exit x y model learning_rate max_epochs min_tol verbose w
  = train_exit x y model learning_rate max_epochs min_tol verbose w
  /\ train_current_loss x y model learning_rate max_epochs min_tol verbose w
     = train x y model learning_rate max_epochs min_tol verbose w.
Proof.
  intros _.
  assert (E : train_current_loss_exit x y model learning_rate max_epochs min_tol verbose w
              = train_exit x y model learning_rate max_epochs min_tol verbose w).
  { unfold train_current_loss_exit, train_exit. apply loops_agree.
    intros b; simpl; discriminate. }
  split; [exact E|]. unfold train_current_loss, train. rewrite E. reflexivity.
Qed.

Lemma current_loss_check_is_equivalent_witness :
  (0 < 2)%Q
  /\ train_current_loss_exit sample_x sample_y line_model 0.1%Q 5 2%Q 2 (one_weight 1)
     = train_exit sample_x sample_y line_model 0.1%Q 5 2%Q 2 (one_weight 1)
  /\ train_current_loss sample_x sample_y line_model 0.1%Q 5 2%Q 2 (one_weight 1)
     = train sample_x sample_y line_model 0.1%Q 5 2%Q 2 (one_weight 1).
Proof.
  assert (H : (0 < 2)%Q) by reflexivity.
  split; [exact H|].
  exact (current_loss_check_is_equivalent
           sample_x sample_y line_model 0.1%Q 5 2%Q 2 (one_weight 1) H).
Defined.

(** ** The running best loss *)

(** C2 (the code at the failing input).  With [min_tol = 0] and a loss
    that is [0] in iteration 0 and [1] in iteration 1, the best loss is
    [0] after the first pass and is overwritten by [1] in the second:
    a best loss equal to zero is falsy, so [not best_loss] holds and
    the larger current loss replaces it. *)
Theorem best_loss_rises_after_zero :
  let run n := train_exit [0%Q] [0%Q] pushed_model 0.01%Q n 0%Q 1 (one_weight 0) in
  let best := best_at [0%Q] [0%Q] pushed_model 0.01%Q [[0%Q]] in
  loss_at [0%Q] [0%Q] pushed_model 0.01%Q [[0%Q]] 0 = 0%Q
  /\ (loss_at [0%Q] [0%Q] pushed_model 0.01%Q [[0%Q]] 1 == 1)%Q
  /\ stop_iter [0%Q] [0%Q] pushed_model 0.01%Q 2 0%Q [[0%Q]] = 2%nat
  /\ fst (run 1) = Frame (Some (best 0%nat)) (Some 0)
  /\ fst (run 2) = Frame (Some (best 1%nat)) (Some 1)
  /\ best 0%nat = 0%Q
  /\ (best 1%nat == 1)%Q
  /\ ~ (best 1%nat <= best 0%nat)%Q
  /\ update_best (Some 0%Q) 1%Q = 1%Q.
Proof.
  vm_compute. repeat split. intros H. apply H. reflexivity.
Qed.

(** A best loss equal to zero is overwritten by any loss. *)
Lemma update_best_falsy (b loss : Q) :
  (b == 0)%Q -> update_best (Some b) loss = loss.
Proof.
  intros Hb. cbn [update_best]. unfold Q_truthy.
  apply Qeq_bool_iff in Hb. rewrite Hb. reflexivity.
Qed.

(** Away from zero the update is a running minimum: with a positive
    tolerance every best loss met by a later iteration is truthy, and
    the best loss never rises from one executed iteration to the next. *)
Lemma best_loss_non_increasing_positive_tolerance
      x y model learning_rate max_epochs min_tol vs0 (k : nat) :
  (0 < min_tol)%Q ->
  (k < stop_iter x y model learning_rate max_epochs min_tol vs0)%nat ->
  (best_at x y model learning_rate vs0 (S k)
   <= best_at x y model learning_rate vs0 k)%Q.
Proof.
  intros Htol Hk.
  assert (Hpass : fires x y model learning_rate min_tol vs0 k = false).
  { apply (first_firing_before x y model learning_rate min_tol vs0
             (Z.to_nat max_epochs) 0). split; [lia|exact Hk]. }
  unfold fires in Hpass. apply Qlt_bool_false in Hpass.
  unfold best_at at 1. cbn [best_before]. fold (best_at x y model learning_rate vs0 k).
  set (b := best_at x y model learning_rate vs0 k) in *.
  set (l := loss_at x y model learning_rate vs0 (S k)).
  cbn [update_best].
  assert (Htruthy : Q_truthy b = true).
  { unfold Q_truthy. apply negb_true_iff.
    destruct (Qeq_bool b 0) eqn:E; [|reflexivity].
    apply Qeq_bool_iff in E. rewrite E in Hpass.
    exfalso. exact (Qlt_not_le _ _ Htol Hpass). }
  rewrite Htruthy. cbn [negb orb].
  destruct (Qlt_bool l b) eqn:E.
  - apply Qlt_bool_iff in E. apply Qlt_le_weak. exact E.
  - apply Qle_refl.
Qed.

(** ** Progress lines of a call *)

Lemma logged_iterations_spec (verbose : Z) (t k : nat) :
  0 <= verbose ->
  In k (logged_iterations verbose t)
  <-> (k < t)%nat /\ verbose <> 0 /\ exists j : nat, Z.of_nat k = Z.of_nat j * verbose.
Proof.
  intros Hv. rewrite <- filter_logs by exact Hv.
  rewrite List.filter_In, in_seq.
  destruct (Z.eqb_spec verbose 0) as [->|Hne].
  - unfold logs. cbn [Z_truthy Z.eqb negb andb]. split.
    + intros [_ H]; discriminate H.
    + intros (_ & H & _). congruence.
  - rewrite logs_multiple by lia. rewrite Nat.eqb_eq, Nat.Div0.mod_divides.
    split.
    + intros [Hk [c Hc]]. split; [lia|]. split; [exact Hne|].
      exists c. rewrite Hc, Nat2Z.inj_mul, Z2Nat.id by lia. lia.
    + intros (Hk & _ & j & Hj). split; [lia|]. exists j.
      apply Nat2Z.inj. rewrite Nat2Z.inj_mul, Z2Nat.id by lia. lia.
Qed.

(** C6.  For a non-negative [verbose], the lines a call prints are the
    progress lines of the iterations [0, verbose, 2 * verbose, ...]
    below the terminating iteration, in that order and each carrying its
    index and the loss of that iteration,
    followed by the termination notice when the check fired and
    [verbose] is truthy; with [verbose = 0] nothing is printed.  The
    text of a progress line holds the index, which reads back as the
    index, and the loss as sign, integer part, point and exactly four
    decimals; integer part and decimals read back as the magnitude of
    the loss in ten-thousandths, rounded to the nearest, so that the
    number printed is within half a unit of the fourth decimal of the
    loss. *)
Theorem progress_lines_at_multiples
        x y model learning_rate max_epochs min_tol verbose w :
  0 <= verbose ->
  let t := stop_iter x y model learning_rate max_epochs min_tol (variables w) in
  let w' := snd (train x y model learning_rate max_epochs min_tol verbose w) in
  printed (run_events w w')
  = ((λ k, Progress (Z.of_nat k) (loss_at x y model learning_rate (variables w) k))
       <$> logged_iterations verbose t)
    ++ (if Z_truthy verbose && (t <? Z.to_nat max_epochs)%nat
        then [Terminated] else [])
  /\ (forall k,
         In k (logged_iterations verbose t)
         <-> (k < t)%nat /\ verbose <> 0
             /\ exists j : nat, Z.of_nat k = Z.of_nat j * verbose)
  /\ (verbose = 0 -> printed (run_events w w') = [])
  /\ (forall k l, exists (int_part decimals : string) (I D : Z),
         render (Progress k l)
         = ("mse loss at iteration " ++ str_int k ++ " is "
            ++ (if Qlt_bool l 0 then "-" else "")
            ++ int_part ++ "." ++ decimals)%string
         /\ (1 <= String.length int_part)%nat
         /\ String.length decimals = 4%nat
         /\ read_int (str_int k) = Some k
         /\ read_int int_part = Some I
         /\ read_int decimals = Some D
         /\ 0 <= I
         /\ 0 <= D < 10000
         /\ I * 10000 + D = round_half_even (Qabs l * 10000)
         /\ (Qabs (inject_Z I + inject_Z D / 10000 - Qabs l) <= 5 # 100000)%Q).
Proof.
  intros Hv t w'. subst w'.
  assert (E : printed (run_events w
                 (snd (train x y model learning_rate max_epochs min_tol verbose w)))
              = ((λ k, Progress (Z.of_nat k)
                         (loss_at x y model learning_rate (variables w) k))
                   <$> logged_iterations verbose t)
                ++ (if Z_truthy verbose && (t <? Z.to_nat max_epochs)%nat
                    then [Terminated] else [])).
  { rewrite train_events, printed_call_events. fold t.
    rewrite filter_logs by exact Hv. reflexivity. }
  split; [exact E|]. split; [|split].
  - intros k. apply logged_iterations_spec. exact Hv.
  - intros ->. rewrite E. reflexivity.
  - intros k l.
    destruct (format_5_4f_digits l)
      as (ip & ds & I & D & Hf & Hi & Hd & HI & HD & HI0 & HD0 & Hsum & Hclose).
    exists ip, ds, I, D.
    split; [cbn [render]; rewrite Hf; reflexivity|].
    split; [exact Hi|]. split; [exact Hd|].
    split; [apply read_int_str_int|].
    repeat (split; [assumption|]). exact Hclose.
Qed.

Lemma progress_lines_at_multiples_witness :
  0 <= 2
  /\ let w := one_weight 0 in
     let t := stop_iter sample_x sample_y line_model 0.1%Q 5 0.001%Q (variables w) in
     let w' := snd (train sample_x sample_y line_model 0.1%Q 5 0.001%Q 2 w) in
     printed (run_events w w')
     = ((λ k, Progress (Z.of_nat k)
                (loss_at sample_x sample_y line_model 0.1%Q (variables w) k))
          <$> logged_iterations 2 t)
       ++ (if Z_truthy 2 && (t <? Z.to_nat 5)%nat then [Terminated] else [])
     /\ (forall k,
            In k (logged_iterations 2 t)
            <-> (k < t)%nat /\ 2 <> 0
                /\ exists j : nat, Z.of_nat k = Z.of_nat j * 2)
     /\ (2 = 0 -> printed (run_events w w') = [])
     /\ (forall k l, exists (int_part decimals : string) (I D : Z),
            render (Progress k l)
            = ("mse loss at iteration " ++ str_int k ++ " is "
               ++ (if Qlt_bool l 0 then "-" else "")
               ++ int_part ++ "." ++ decimals)%string
            /\ (1 <= String.length int_part)%nat
            /\ String.length decimals = 4%nat
            /\ read_int (str_int k) = Some k
            /\ read_int int_part = Some I
            /\ read_int decimals = Some D
            /\ 0 <= I
            /\ 0 <= D < 10000
            /\ I * 10000 + D = round_half_even (Qabs l * 10000)
            /\ (Qabs (inject_Z I + inject_Z D / 10000 - Qabs l) <= 5 # 100000)%Q).
Proof.
  assert (H : 0 <= 2) by lia.
  split; [exact H|].
  exact (progress_lines_at_multiples
           sample_x sample_y line_model 0.1%Q 5 0.001%Q 2 (one_weight 0) H).
Defined.

(** The call of the witness: three passes, with lines for iterations 0
    and 2, and the notice. *)
Example printed_sample :
  let w := one_weight 0 in
  stop_iter sample_x sample_y line_model 0.1%Q 5 0.001%Q (variables w) = 2%nat
  /\ logged_iterations 2 5 = [0; 2; 4]%nat
  /\ render <$> printed (trace
                (snd (train sample_x sample_y line_model 0.1%Q 5 0.001%Q 1 w)))
     = ["mse loss at iteration 0 is 18.6667";
        "mse loss at iteration 1 is 0.0830";
        "terminated as loss less than minimal tolerance"]%string.
Proof. vm_compute. repeat split. Qed.

(** ** Two calls on the line [y = 2 * x] *)

(** With [learning_rate = 0.1], [max_epochs = 10000] and
    [min_tol = 1e-6] the check fires in iteration 4; the weight is then
    within [1e-2] of [2], and the call has printed the line of
    iteration 0 and the notice. *)
Example line_converges :
  let w' := snd (train sample_x sample_y line_model 0.1%Q 10000 (1 # 1000000)
                       1000 (one_weight 0)) in
  stop_iter sample_x sample_y line_model 0.1%Q 10000 (1 # 1000000) [[0%Q]] = 4%nat
  /\ (Qabs (weight (variables w') - 2) < 1 # 100)%Q
  /\ render <$> printed (trace w')
     = ["mse loss at iteration 0 is 18.6667";
        "terminated as loss less than minimal tolerance"]%string.
Proof. vm_compute. repeat split. Qed.

(** With [max_epochs = 1] there is one pass and one update; the loop is
    exhausted, not terminated. *)
Example line_one_epoch :
  train_exit sample_x sample_y line_model 0.1%Q 1 (1 # 1000000) 1000 (one_weight 0)
  = (Frame (Some (56 # 3)%Q) (Some 0),
     World [[56 # 30]%Q]
           [EvCall; EvPrint (Progress 0 (56 # 3)); EvGradient;
            EvAssignAdd 0 [56 # 30]%Q]).
Proof. vm_compute. reflexivity. Qed.

(** The lines of the notebook's first run, which stopped after
    iteration 2000: iterations 0, 1000 and 2000. *)
Example notebook_lines : logged_iterations 1000 2500 = [0; 1000; 2000]%nat.
Proof. vm_compute. reflexivity. Qed.

(** * Further properties of [train] *)

(** ** How a call ends *)

Lemma call_events_counts x y model learning_rate max_epochs min_tol verbose vs0 :
  let t := stop_iter x y model learning_rate max_epochs min_tol vs0 in
  let evs := call_events x y model learning_rate max_epochs min_tol verbose vs0 in
  iterations evs = (t + (if (t <? Z.to_nat max_epochs)%nat then 1 else 0))%nat
  /\ count is_gradient evs = t.
Proof.
  intros t evs. subst evs. unfold call_events, iterations. fold t.
  rewrite !count_app.
  rewrite (count_concat_const is_call _ _ 1%nat) by apply pass_events_calls.
  rewrite (count_concat_const is_gradient _ _ 1%nat) by apply pass_events_gradients.
  rewrite length_seq.
  destruct (t <? Z.to_nat max_epochs)%nat.
  - rewrite !stop_events_count by reflexivity. cbn [is_call is_gradient]. lia.
  - unfold count; simpl. lia.
Qed.

Lemma stop_iter_bounds x y model learning_rate max_epochs min_tol vs0 :
  (stop_iter x y model learning_rate max_epochs min_tol vs0 <= Z.to_nat max_epochs)%nat.
Proof.
  unfold stop_iter.
  pose proof (first_firing_bounds x y model learning_rate min_tol vs0
                (Z.to_nat max_epochs) 0). lia.
Qed.

(** X1.  An empty range: with [max_epochs <= 0] the loop body is never
    entered; the call returns [None] and leaves the variables, the
    trace and both locals as they were. *)
Theorem train_skips_empty_range
        x y model learning_rate max_epochs min_tol verbose w :
  max_epochs <= 0 ->
  train x y model learning_rate max_epochs min_tol verbose w = (PyNone, w)
  /\ train_exit x y model learning_rate max_epochs min_tol verbose w
     = (Frame None None, w).
Proof.
  intros Hn. unfold train, train_exit.
  replace (Z.to_nat max_epochs) with 0%nat by lia. split; reflexivity.
Qed.

Lemma train_skips_empty_range_witness :
  -3 <= 0
  /\ train sample_x sample_y line_model 0.1%Q (-3) 0.001%Q 1 (one_weight 0)
     = (PyNone, one_weight 0)
  /\ train_exit sample_x sample_y line_model 0.1%Q (-3) 0.001%Q 1 (one_weight 0)
     = (Frame None None, one_weight 0).
Proof.
  assert (H : -3 <= 0) by lia.
  split; [exact H|].
  exact (train_skips_empty_range
           sample_x sample_y line_model 0.1%Q (-3) 0.001%Q 1 (one_weight 0) H).
Defined.

(** X2.  After a call with [max_epochs >= 1] the locals tell how the
    loop ended: [best_loss] is set, [it] is the number of passes made
    minus one, and [best_loss < min_tol] holds exactly when the loop was
    left by [break], which is exactly when the call made one forward
    pass more than gradient requests.  A call never makes more than
    [max_epochs] passes. *)
Theorem exit_locals_tell_how_the_loop_ended
        x y model learning_rate max_epochs min_tol verbose w :
  0 < max_epochs ->
  let t := stop_iter x y model learning_rate max_epochs min_tol (variables w) in
  let fr := fst (train_exit x y model learning_rate max_epochs min_tol verbose w) in
  let evs :=
    run_events w (snd (train_exit x y model learning_rate max_epochs min_tol verbose w)) in
  exists b,
    best_loss fr = Some b
    /\ it fr = Some (Z.of_nat (iterations evs) - 1)
    /\ Qlt_bool b min_tol = (t <? Z.to_nat max_epochs)%nat
    /\ iterations evs
       = (count is_gradient evs + (if Qlt_bool b min_tol then 1 else 0))%nat
    /\ (iterations evs <= Z.to_nat max_epochs)%nat.
Proof.
  intros Hpos t fr evs. subst fr evs. destruct w as [vs tr].
  rewrite train_exit_run. cbn [fst snd variables] in *.
  rewrite run_events_extend.
  destruct (call_events_counts x y model learning_rate max_epochs min_tol verbose vs)
    as [Hi Hg]. fold t in Hi, Hg.
  pose proof (stop_iter_bounds x y model learning_rate max_epochs min_tol vs) as Hb.
  fold t in Hb.
  destruct (Z.to_nat max_epochs) as [|n] eqn:En; [lia|].
  set (l := last_index x y model learning_rate min_tol vs (S n) 0).
  assert (Hl : l = Nat.min t (0 + S n - 1)).
  { unfold l, last_index, t, stop_iter. rewrite En. reflexivity. }
  exists (best_at x y model learning_rate vs l). cbn [best_loss it].
  rewrite Hi, Hg.
  destruct (t <? S n)%nat eqn:Ht.
  - apply Nat.ltb_lt in Ht.
    assert (El : l = t) by lia.
    assert (Hf : Qlt_bool (best_at x y model learning_rate vs l) min_tol = true).
    { rewrite El. unfold t, stop_iter. rewrite En.
      apply (first_firing_fires x y model learning_rate min_tol vs (S n) 0).
      unfold t, stop_iter in Ht. rewrite En in Ht. lia. }
    rewrite Hf, El. repeat split; try reflexivity; try lia. f_equal. lia.
  - apply Nat.ltb_ge in Ht.
    assert (El : l = n) by lia.
    assert (Hf : Qlt_bool (best_at x y model learning_rate vs l) min_tol = false).
    { apply (first_firing_before x y model learning_rate min_tol vs (S n) 0).
      unfold t, stop_iter in Ht, Hb. rewrite En in Ht. lia. }
    rewrite Hf, El. repeat split; try reflexivity; try lia. f_equal. lia.
Qed.

Lemma exit_locals_tell_how_the_loop_ended_witness :
  0 < 5
  /\ let w := one_weight 1 in
     let t := stop_iter sample_x sample_y line_model 0.1%Q 5 2%Q (variables w) in
     let fr := fst (train_exit sample_x sample_y line_model 0.1%Q 5 2%Q 2 w) in
     let evs :=
       run_events w (snd (train_exit sample_x sample_y line_model 0.1%Q 5 2%Q 2 w)) in
     exists b,
       best_loss fr = Some b
       /\ it fr = Some (Z.of_nat (iterations evs) - 1)
       /\ Qlt_bool b 2%Q = (t <? Z.to_nat 5)%nat
       /\ iterations evs
          = (count is_gradient evs + (if Qlt_bool b 2%Q then 1 else 0))%nat
       /\ (iterations evs <= Z.to_nat 5)%nat.
Proof.
  assert (H : 0 < 5) by lia.
  split; [exact H|].
  exact (exit_locals_tell_how_the_loop_ended
           sample_x sample_y line_model 0.1%Q 5 2%Q 2 (one_weight 1) H).
Defined.

(** ** The best loss on exit *)

Section BestLoss.
Variables (x y : tensor) (model : Model).
Variables (learning_rate : Q) (min_tol : Q) (vs0 : list tensor).

Local Abbreviation loss k := (loss_at x y model learning_rate vs0 k).
Local Abbreviation best k := (best_at x y model learning_rate vs0 k).
Local Abbreviation fire k := (fires x y model learning_rate min_tol vs0 k).

(** The best loss of an iteration is the loss of that or of an earlier
    iteration. *)
Lemma best_at_is_a_loss (k : nat) : exists j, (j <= k)%nat /\ best k = loss j.
Proof.
  induction k as [|k IH].
  - exists 0%nat. split; [lia|reflexivity].
  - unfold best_at. cbn [best_before].
    fold (best_at x y model learning_rate vs0 k).
    destruct (update_best_cases (Some (best k)) (loss (S k))) as [E|E].
    + exists (S k). split; [lia|exact E].
    + destruct IH as (j & Hj & Ej). exists j. split; [lia|].
      injection E as E. exact (eq_trans (eq_sym E) Ej).
Qed.

(** While no check has fired under a positive tolerance, the best loss
    is a lower bound of all losses so far. *)
Lemma best_at_is_least (k : nat) :
  (0 < min_tol)%Q ->
  (forall j, (j < k)%nat -> fire j = false) ->
  forall j, (j <= k)%nat -> (best k <= loss j)%Q.
Proof.
  intros Htol. induction k as [|k IH]; intros Hpass j Hj.
  - replace j with 0%nat by lia. apply Qle_refl.
  - assert (Hk : fire k = false) by (apply Hpass; lia).
    unfold fires in Hk. apply Qlt_bool_false in Hk.
    assert (Htruthy : Q_truthy (best k) = true).
    { unfold Q_truthy. apply negb_true_iff.
      destruct (Qeq_bool (best k) 0) eqn:E; [|reflexivity].
      apply Qeq_bool_iff in E. rewrite E in Hk.
      exfalso. exact (Qlt_not_le _ _ Htol Hk). }
    unfold best_at at 1. cbn [best_before update_best].
    fold (best_at x y model learning_rate vs0 k).
    rewrite Htruthy. cbn [negb orb].
    assert (Hprev : forall i, (i <= k)%nat -> (best k <= loss i)%Q).
    { apply IH. intros i Hi. apply Hpass. lia. }
    destruct (Qlt_bool (loss (S k)) (best k)) eqn:E.
    + apply Qlt_bool_iff in E.
      destruct (decide (j = S k)) as [->|Hne]; [apply Qle_refl|].
      apply Qle_trans with (y := best k);
        [apply Qlt_le_weak; exact E|apply Hprev; lia].
    + apply Qlt_bool_false in E.
      destruct (decide (j = S k)) as [->|Hne]; [exact E|apply Hprev; lia].
Qed.

End BestLoss.

(** X3.  After a call with [max_epochs >= 1] and a positive tolerance,
    [best_loss] is the least of the losses the call has computed: it is
    one of them and none is smaller. *)
Theorem final_best_loss_is_least_loss
        x y model learning_rate max_epochs min_tol verbose w :
  0 < max_epochs ->
  (0 < min_tol)%Q ->
  let fr := fst (train_exit x y model learning_rate max_epochs min_tol verbose w) in
  let evs :=
    run_events w (snd (train_exit x y model learning_rate max_epochs min_tol verbose w)) in
  let loss k := loss_at x y model learning_rate (variables w) k in
  exists b,
    best_loss fr = Some b
    /\ (exists j, (j < iterations evs)%nat /\ b = loss j)
    /\ (forall j, (j < iterations evs)%nat -> (b <= loss j)%Q).
Proof.
  intros Hpos Htol fr evs loss. subst fr evs loss. destruct w as [vs tr].
  rewrite train_exit_run. cbn [fst snd variables].
  rewrite run_events_extend.
  destruct (call_events_counts x y model learning_rate max_epochs min_tol verbose vs)
    as [Hi _]. rewrite Hi. clear Hi.
  pose proof (stop_iter_bounds x y model learning_rate max_epochs min_tol vs) as Hb.
  unfold stop_iter in *.
  destruct (Z.to_nat max_epochs) as [|n] eqn:En; [lia|].
  set (t := first_firing x y model learning_rate min_tol vs (S n) 0) in *.
  set (l := last_index x y model learning_rate min_tol vs (S n) 0).
  assert (Hl : l = Nat.min t (0 + S n - 1)) by reflexivity.
  assert (Hit : (t + (if (t <? S n)%nat then 1 else 0) = S l)%nat).
  { destruct (t <? S n)%nat eqn:Ht;
      [apply Nat.ltb_lt in Ht|apply Nat.ltb_ge in Ht]; lia. }
  rewrite Hit.
  exists (best_at x y model learning_rate vs l). cbn [best_loss].
  split; [reflexivity|]. split.
  - destruct (best_at_is_a_loss x y model learning_rate vs l) as (j & Hj & Ej).
    exists j. split; [lia|exact Ej].
  - intros j Hj.
    apply (best_at_is_least x y model learning_rate min_tol vs l Htol); [|lia].
    intros i Hi.
    apply (first_firing_before x y model learning_rate min_tol vs (S n) 0).
    fold t. lia.
Qed.

Lemma final_best_loss_is_least_loss_witness :
  0 < 3
  /\ (0 < 0.001)%Q
  /\ let w := one_weight 0 in
     let fr := fst (train_exit sample_x sample_y line_model 0.1%Q 3 0.001%Q 1 w) in
     let evs :=
       run_events w (snd (train_exit sample_x sample_y line_model 0.1%Q 3 0.001%Q 1 w)) in
     let loss k := loss_at sample_x sample_y line_model 0.1%Q (variables w) k in
     exists b,
       best_loss fr = Some b
       /\ (exists j, (j < iterations evs)%nat /\ b = loss j)
       /\ (forall j, (j < iterations evs)%nat -> (b <= loss j)%Q).
Proof.
  assert (H1 : 0 < 3) by lia.
  assert (H2 : (0 < 0.001)%Q) by reflexivity.
  split; [exact H1|]. split; [exact H2|].
  exact (final_best_loss_is_least_loss
           sample_x sample_y line_model 0.1%Q 3 0.001%Q 1 (one_weight 0) H1 H2).
Defined.

(** ** How much a call prints *)

Lemma filter_progress_lines {A} (f : A -> line) (l : list A) :
  (forall a, is_progress (f a) = true) ->
  List.filter is_progress (f <$> l) = f <$> l.
Proof.
  intros Hf. induction l as [|a l IH]; [reflexivity|].
  cbn [fmap list_fmap List.filter]. rewrite Hf. f_equal. exact IH.
Qed.

Lemma logged_iterations_length (verbose : Z) (t : nat) :
  0 < verbose ->
  length (logged_iterations verbose t)
  = ((t + Z.to_nat verbose - 1) / Z.to_nat verbose)%nat.
Proof.
  intros Hv. unfold logged_iterations.
  replace (Z_truthy verbose) with true
    by (unfold Z_truthy; symmetry; apply negb_true_iff, Z.eqb_neq; lia).
  rewrite length_fmap, length_seq. reflexivity.
Qed.

(** The lines of a call, counted. *)
Lemma printed_line_count x y model learning_rate max_epochs min_tol verbose w :
  0 < verbose ->
  let t := stop_iter x y model learning_rate max_epochs min_tol (variables w) in
  let v := Z.to_nat verbose in
  let lines :=
    printed (run_events w
               (snd (train x y model learning_rate max_epochs min_tol verbose w))) in
  length (List.filter is_progress lines) = ((t + v - 1) / v)%nat
  /\ length lines
     = ((t + v - 1) / v + (if (t <? Z.to_nat max_epochs)%nat then 1 else 0))%nat
  /\ ((t + v - 1) / v <= (Z.to_nat max_epochs + v - 1) / v)%nat.
Proof.
  intros Hv t v lines. subst lines.
  rewrite train_events, printed_call_events. fold t.
  rewrite filter_logs by lia.
  pose proof (stop_iter_bounds x y model learning_rate max_epochs min_tol (variables w))
    as Hb. fold t in Hb.
  rewrite List.filter_app, filter_progress_lines by reflexivity.
  rewrite !length_app, !length_fmap, logged_iterations_length by exact Hv. fold v.
  replace (Z_truthy verbose) with true
    by (unfold Z_truthy; symmetry; apply negb_true_iff, Z.eqb_neq; lia).
  cbn [andb].
  split; [|split].
  - destruct (t <? Z.to_nat max_epochs)%nat; cbn [List.filter is_progress length]; lia.
  - destruct (t <? Z.to_nat max_epochs)%nat; reflexivity.
  - apply Nat.Div0.div_le_mono. lia.
Qed.

(** X5.  For a positive [verbose] a call prints one progress line per
    started block of [verbose] iterations before the terminating one:
    never more than [max_epochs / verbose] rounded up, plus at most the
    notice. *)
Theorem progress_lines_are_bounded
        x y model learning_rate max_epochs min_tol verbose w :
  0 < verbose ->
  let t := stop_iter x y model learning_rate max_epochs min_tol (variables w) in
  let v := Z.to_nat verbose in
  let lines :=
    printed (run_events w
               (snd (train x y model learning_rate max_epochs min_tol verbose w))) in
  length (List.filter is_progress lines) = ((t + v - 1) / v)%nat
  /\ (length (List.filter is_progress lines)
      <= (Z.to_nat max_epochs + v - 1) / v)%nat
  /\ (length lines <= (Z.to_nat max_epochs + v - 1) / v + 1)%nat.
Proof.
  intros Hv t v lines.
  destruct (printed_line_count x y model learning_rate max_epochs min_tol verbose w Hv)
    as (H1 & H2 & H3).
  fold t v lines in H1, H2, H3.
  destruct (t <? Z.to_nat max_epochs)%nat; repeat split; lia.
Qed.

Lemma progress_lines_are_bounded_witness :
  0 < 2
  /\ let w := one_weight 0 in
     let t := stop_iter sample_x sample_y line_model 0.1%Q 5 0.001%Q (variables w) in
     let v := Z.to_nat 2 in
     let lines :=
       printed (run_events w
                  (snd (train sample_x sample_y line_model 0.1%Q 5 0.001%Q 2 w))) in
     length (List.filter is_progress lines) = ((t + v - 1) / v)%nat
     /\ (length (List.filter is_progress lines) <= (Z.to_nat 5 + v - 1) / v)%nat
     /\ (length lines <= (Z.to_nat 5 + v - 1) / v + 1)%nat.
Proof.
  assert (H : 0 < 2) by lia.
  split; [exact H|].
  exact (progress_lines_are_bounded
           sample_x sample_y line_model 0.1%Q 5 0.001%Q 2 (one_weight 0) H).
Defined.

(** X6.  The call [train(x, y, model)] of the notebook, with the
    defaults of the signature, prints at most ten progress lines and
    eleven lines in all, whatever the data and the model. *)
Theorem default_call_prints_at_most_eleven_lines x y model w :
  let lines := printed (run_events w (snd (train_defaults x y model w))) in
  (length (List.filter is_progress lines) <= 10)%nat
  /\ (length lines <= 11)%nat.
Proof.
  intros lines. subst lines. unfold train_defaults.
  destruct (printed_line_count x y model 0.01%Q 10000 0.001%Q 1000 w ltac:(lia))
    as (H1 & H2 & H3).
  assert (E : ((Z.to_nat 10000 + Z.to_nat 1000 - 1) / Z.to_nat 1000 = 10)%nat)
    by (vm_compute; reflexivity).
  rewrite E in H3. rewrite H1, H2.
  destruct (_ <? _)%nat; lia.
Qed.

(** ** A negative [verbose] *)

Lemma Z_truthy_opp (z : Z) : Z_truthy (- z) = Z_truthy z.
Proof.
  unfold Z_truthy. f_equal.
  destruct (Z.eqb_spec z 0) as [->|Hz]; [reflexivity|].
  apply Z.eqb_neq. lia.
Qed.

(** [it % verbose] vanishes for [-verbose] when it does for [verbose]. *)
Lemma logs_opp (verbose i : Z) : logs (- verbose) i = logs verbose i.
Proof.
  unfold logs. rewrite Z_truthy_opp.
  destruct (Z.eqb_spec verbose 0) as [->|Hv]; [reflexivity|].
  f_equal. f_equal. unfold Z_truthy. f_equal.
  destruct (Z.eqb_spec (i mod verbose) 0) as [E|E].
  - apply Z.eqb_eq. apply Z.mod_divide; [lia|].
    apply Z.divide_opp_l. apply Z.mod_divide in E; assumption.
  - apply Z.eqb_neq. intros E'. apply E.
    apply Z.mod_divide; [exact Hv|].
    apply Z.mod_divide in E'; [|lia]. apply (Z.divide_opp_l verbose i). exact E'.
Qed.

Lemma train_body_opp x y model learning_rate min_tol verbose i best w :
  train_body x y model learning_rate min_tol (- verbose) i best w
  = train_body x y model learning_rate min_tol verbose i best w.
Proof.
  unfold train_body.
  change (Z_truthy (- verbose) && negb (Z_truthy (i mod - verbose)))
    with (logs (- verbose) i).
  rewrite logs_opp, Z_truthy_opp. reflexivity.
Qed.

Lemma train_loop_opp x y model learning_rate min_tol verbose n i fr w :
  train_loop x y model learning_rate min_tol (- verbose) n i fr w
  = train_loop x y model learning_rate min_tol verbose n i fr w.
Proof.
  revert i fr w. induction n as [|n IH]; intros i fr w; [reflexivity|].
  cbn [train_loop]. rewrite train_body_opp.
  destruct (train_body x y model learning_rate min_tol verbose i (best_loss fr) w)
    as [[c b] w'].
  destruct c; [reflexivity|apply IH].
Qed.

(** X7.  Only the magnitude of [verbose] matters: a call with
    [-verbose] makes the same passes, prints the same lines and leaves
    the same variables and locals as the call with [verbose]. *)
Theorem verbose_sign_is_irrelevant
        x y model learning_rate max_epochs min_tol verbose w :
  train_exit x y model learning_rate max_epochs min_tol (- verbose) w
  = train_exit x y model learning_rate max_epochs min_tol verbose w
  /\ train x y model learning_rate max_epochs min_tol (- verbose) w
     = train x y model learning_rate max_epochs min_tol verbose w.
Proof.
  assert (E : train_exit x y model learning_rate max_epochs min_tol (- verbose) w
              = train_exit x y model learning_rate max_epochs min_tol verbose w)
    by apply train_loop_opp.
  split; [exact E|]. unfold train. rewrite E. reflexivity.
Qed.

(** ** Training in two calls *)

Section Resume.
Variables (x y : tensor) (model : Model).
Variables (learning_rate : Q) (min_tol : Q).

Local Abbreviation settled n vs := (settle x y model learning_rate min_tol n vs).

(** Where the loop leaves the variables depends on the losses only. *)
Lemma train_loop_settles verbose (n : nat) (i : Z) (fr : frame)
      (vs : list tensor) (tr : list event) :
  survived min_tol (best_loss fr) ->
  variables (snd (train_loop x y model learning_rate min_tol verbose n i fr
                             (World vs tr)))
  = settled n vs.
Proof.
  revert i fr vs tr. induction n as [|n IH]; intros i fr vs tr Hs; [reflexivity|].
  cbn [train_loop settle].
  pose proof (checks_agree min_tol (best_loss fr) (loss_of x y model vs) Hs) as Hc.
  destruct (Qlt_bool (loss_of x y model vs) min_tol) eqn:E.
  - rewrite body_break by exact Hc. reflexivity.
  - rewrite body_continue by exact Hc. apply IH.
    intros b [= <-]. exact Hc.
Qed.

Lemma train_settles verbose max_epochs (w : world) :
  variables (snd (train x y model learning_rate max_epochs min_tol verbose w))
  = settled (Z.to_nat max_epochs) (variables w).
Proof.
  destruct w as [vs tr]. unfold train, train_exit. cbn [snd variables].
  apply train_loop_settles. intros b; discriminate.
Qed.

Lemma settle_add (a b : nat) (vs : list tensor) :
  settled (a + b) vs = settled b (settled a vs).
Proof.
  revert vs. induction a as [|a IH]; intros vs; [reflexivity|].
  cbn [Nat.add settle].
  destruct (Qlt_bool (loss_of x y model vs) min_tol) eqn:E; [|apply IH].
  destruct b as [|b]; [reflexivity|]. cbn [settle]. rewrite E. reflexivity.
Qed.

End Resume.

(** X8.  Training can be split: a call with [a] epochs followed by a
    call with [b] epochs on the same data leaves the variables exactly
    where one call with [a + b] epochs leaves them, whatever the
    [verbose] of each call (the second call starts with an unset
    [best_loss] and counts from 0 again, which changes what is printed
    and nothing else). *)
Theorem training_can_be_split
        x y model learning_rate min_tol (a b : Z) (verbose1 verbose2 verbose : Z) w :
  0 <= a -> 0 <= b ->
  let w1 := snd (train x y model learning_rate a min_tol verbose1 w) in
  let w2 := snd (train x y model learning_rate b min_tol verbose2 w1) in
  variables w2
  = variables (snd (train x y model learning_rate (a + b) min_tol verbose w)).
Proof.
  intros Ha Hb w1 w2. subst w1 w2. rewrite !train_settles.
  rewrite Z2Nat.inj_add by assumption. rewrite settle_add. reflexivity.
Qed.

Lemma training_can_be_split_witness :
  0 <= 1 /\ 0 <= 2
  /\ let w := weight_and_bias 0 0 in
     let w1 := snd (train sample_x sample_y affine_model 0.1%Q 1 0.001%Q 1 w) in
     let w2 := snd (train sample_x sample_y affine_model 0.1%Q 2 0.001%Q 0 w1) in
     variables w2
     = variables (snd (train sample_x sample_y affine_model 0.1%Q (1 + 2) 0.001%Q 5 w)).
Proof.
  assert (H1 : 0 <= 1) by lia. assert (H2 : 0 <= 2) by lia.
  split; [exact H1|]. split; [exact H2|].
  exact (training_can_be_split
           sample_x sample_y affine_model 0.1%Q 0.001%Q 1 2 1 0 5
           (weight_and_bias 0 0) H1 H2).
Defined.

(** ** Targets the model already reproduces *)





(** ** More epochs, a looser tolerance *)

Section Budget.
Variables (x y : tensor) (model : Model).
Variables (learning_rate : Q) (vs0 : list tensor).

Local Abbreviation stop tol n k := (first_firing x y model learning_rate tol vs0 n k).

(** The search over a longer range agrees with the shorter one up to the
    end of the shorter. *)
Lemma first_firing_longer min_tol (n m k : nat) :
  stop min_tol n k = Nat.min (stop min_tol (n + m) k) (k + n).
Proof.
  revert k. induction n as [|n IH]; intros k.
  - cbn [first_firing Nat.add].
    pose proof (first_firing_bounds x y model learning_rate min_tol vs0 m k). lia.
  - cbn [first_firing Nat.add].
    destruct (fires x y model learning_rate min_tol vs0 k); [lia|].
    rewrite IH. lia.
Qed.

(** A check that fires for a tolerance fires for every larger one. *)
Lemma first_firing_looser tol tol' (n k : nat) :
  (tol <= tol')%Q -> (stop tol' n k <= stop tol n k)%nat.
Proof.
  intros Hle. revert k. induction n as [|n IH]; intros k; cbn [first_firing].
  - lia.
  - destruct (fires x y model learning_rate tol vs0 k) eqn:E.
    + unfold fires in *. apply Qlt_bool_iff in E.
      assert (E' : Qlt_bool (best_at x y model learning_rate vs0 k) tol' = true)
        by (apply Qlt_bool_iff; exact (Qlt_le_trans _ _ _ E Hle)).
      rewrite E'. lia.
    + destruct (fires x y model learning_rate tol' vs0 k).
      * pose proof (first_firing_bounds x y model learning_rate tol vs0 n (S k)). lia.
      * apply IH.
Qed.

End Budget.

(** X10.  Raising [max_epochs] only extends a call: what the call with
    fewer epochs appends to the trace is an initial segment of what the
    call with more epochs appends, and it makes no more passes. *)
Theorem more_epochs_extend_the_run
        x y model learning_rate (n1 n2 : Z) min_tol verbose w :
  n1 <= n2 ->
  let evs n := run_events w (snd (train x y model learning_rate n min_tol verbose w)) in
  evs n1 `prefix_of` evs n2
  /\ (iterations (evs n1) <= iterations (evs n2))%nat.
Proof.
  intros Hle evs. subst evs. cbn beta.
  assert (Hpre : call_events x y model learning_rate n1 min_tol verbose (variables w)
                 `prefix_of`
                 call_events x y model learning_rate n2 min_tol verbose (variables w)).
  { unfold call_events, stop_iter.
    set (N1 := Z.to_nat n1). set (N2 := Z.to_nat n2).
    assert (HN : (N2 = N1 + (N2 - N1))%nat) by (unfold N1, N2; lia).
    pose proof (first_firing_longer x y model learning_rate (variables w) min_tol
                  N1 (N2 - N1) 0) as Hmin.
    rewrite <- HN in Hmin.
    set (t1 := first_firing x y model learning_rate min_tol (variables w) N1 0) in *.
    set (t2 := first_firing x y model learning_rate min_tol (variables w) N2 0) in *.
    destruct (Nat.lt_ge_cases t2 N1) as [Hlt|Hge].
    - assert (E : t1 = t2) by lia. rewrite E.
      replace (t2 <? N1)%nat with true by (symmetry; apply Nat.ltb_lt; lia).
      replace (t2 <? N2)%nat with true by (symmetry; apply Nat.ltb_lt; lia).
      reflexivity.
    - assert (E : t1 = N1) by lia. rewrite E.
      rewrite Nat.ltb_irrefl, app_nil_r.
      replace t2 with (N1 + (t2 - N1))%nat by lia.
      rewrite seq_app, fmap_app, concat_app, <- app_assoc.
      apply prefix_app_r. reflexivity. }
  rewrite !train_events. split; [exact Hpre|].
  destruct Hpre as [k Hk]. rewrite Hk. unfold iterations. rewrite count_app. lia.
Qed.

Lemma more_epochs_extend_the_run_witness :
  2 <= 5
  /\ let w := one_weight 0 in
     let evs n :=
       run_events w (snd (train sample_x sample_y line_model 0.1%Q n 0.001%Q 1 w)) in
     evs 2 `prefix_of` evs 5
     /\ (iterations (evs 2%Z) <= iterations (evs 5%Z))%nat.
Proof.
  assert (H : 2 <= 5) by lia.
  split; [exact H|].
  exact (more_epochs_extend_the_run
           sample_x sample_y line_model 0.1%Q 2 5 0.001%Q 1 (one_weight 0) H).
Defined.

(** X11.  Loosening the tolerance never lengthens a call: with a larger
    [min_tol] the check fires no later, and the call makes no more
    passes and no more gradient requests. *)
Theorem looser_tolerance_stops_no_later
        x y model learning_rate max_epochs (tol tol' : Q) verbose w :
  (tol <= tol')%Q ->
  let t m := stop_iter x y model learning_rate max_epochs m (variables w) in
  let evs m := run_events w (snd (train x y model learning_rate max_epochs m verbose w)) in
  (t tol' <= t tol)%nat
  /\ (iterations (evs tol') <= iterations (evs tol))%nat
  /\ (count is_gradient (evs tol') <= count is_gradient (evs tol))%nat.
Proof.
  intros Hle t evs. subst evs. cbn beta.
  assert (Ht : (t tol' <= t tol)%nat)
    by (apply first_firing_looser; exact Hle).
  rewrite !train_events.
  destruct (call_events_counts x y model learning_rate max_epochs tol verbose (variables w))
    as [Hi Hg].
  destruct (call_events_counts x y model learning_rate max_epochs tol' verbose (variables w))
    as [Hi' Hg'].
  fold (t tol) in Hi, Hg. fold (t tol') in Hi', Hg'.
  rewrite Hi, Hg, Hi', Hg'.
  pose proof (stop_iter_bounds x y model learning_rate max_epochs tol (variables w)) as Hb.
  fold (t tol) in Hb.
  split; [exact Ht|]. split; [|exact Ht].
  destruct (Nat.ltb_spec (t tol') (Z.to_nat max_epochs));
    destruct (Nat.ltb_spec (t tol) (Z.to_nat max_epochs)); lia.
Qed.

Lemma looser_tolerance_stops_no_later_witness :
  (0.001 <= 2)%Q
  /\ let w := one_weight 1 in
     let t m := stop_iter sample_x sample_y line_model 0.1%Q 5 m (variables w) in
     let evs m :=
       run_events w (snd (train sample_x sample_y line_model 0.1%Q 5 m 1 w)) in
     (t 2%Q <= t 0.001%Q)%nat
     /\ (iterations (evs 2%Q) <= iterations (evs 0.001%Q))%nat
     /\ (count is_gradient (evs 2%Q) <= count is_gradient (evs 0.001%Q))%nat.
Proof.
  assert (H : (0.001 <= 2)%Q) by (unfold Qle; simpl; lia).
  split; [exact H|].
  exact (looser_tolerance_stops_no_later
           sample_x sample_y line_model 0.1%Q 5 0.001%Q 2%Q 1 (one_weight 1) H).
Defined.

(** * Matrices and the linear models *)

(** ** Lengths of tensors *)

Lemma t_add_length (a b : tensor) :
  length a = length b -> length (t_add a b) = length a.
Proof. intros H. unfold t_add. rewrite length_zip_with. lia. Qed.

Lemma t_scale_length (c : Q) (a : tensor) : length (t_scale c a) = length a.
Proof. unfold t_scale. apply length_fmap. Qed.

(** ** A row times a matrix *)

Lemma row_times_cons (n : nat) (c : Q) (r : tensor) (br : tensor)
      (rest : list tensor) :
  row_times n (c :: r) (br :: rest) = t_add (t_scale c br) (row_times n r rest).
Proof. reflexivity. Qed.

Lemma row_times_length (n : nat) (r : tensor) (rows : list tensor) :
  Forall (λ br : tensor, length br = n) rows ->
  length (row_times n r rows) = n.
Proof.
  intros Hrows. revert r.
  induction Hrows as [|br rows Hbr Hrows IH]; intros [|c r];
    try (unfold row_times; cbn [zip zip_with foldr]; apply length_replicate).
  rewrite row_times_cons, t_add_length; rewrite t_scale_length; [exact Hbr|].
  rewrite IH. exact Hbr.
Qed.

(** ** [tf.matmul] *)

Lemma mm_well_formed (a b : matrix) : well_formed b -> well_formed (mm a b).
Proof.
  intros Hb. unfold well_formed, mm; cbn [mrows ncols].
  apply Forall_fmap, Forall_forall. intros r _. cbn.
  apply row_times_length. exact Hb.
Qed.

Lemma matmul_Some (a b : matrix) :
  ncols a = nrows b -> matmul a b = Some (mm a b).
Proof. intros H. unfold matmul. rewrite decide_True by exact H. reflexivity. Qed.

Example matmul_sample :
  matmul sample_a sample_b = Some (Matrix 2 [[3 # 1; 5 # 1]%Q])
  /\ matmul sample_b sample_a = None.
Proof. vm_compute. split; reflexivity. Qed.

(** ** The layer [Linear] and the stacked model *)

Lemma fill_shape (d u : nat) (f : nat -> nat -> Q) :
  nrows (fill d u f) = d /\ ncols (fill d u f) = u /\ well_formed (fill d u f).
Proof.
  unfold nrows, well_formed, fill; cbn [mrows ncols].
  rewrite length_fmap, length_seq. split; [reflexivity|]. split; [reflexivity|].
  apply Forall_fmap, Forall_forall. intros i _. cbn.
  rewrite length_fmap, length_seq. reflexivity.
Qed.

Lemma Qplus_0_r_eq (q : Q) : (q + 0)%Q = q.
Proof.
  destruct q as [n d]. unfold Qplus; cbn [Qnum Qden]. f_equal; lia.
Qed.

(** Adding zeros, exactly. *)
Lemma t_add_zeros_r_eq (n : nat) (r : tensor) :
  length r = n -> t_add r (replicate n 0%Q) = r.
Proof.
  intros <-. unfold t_add.
  induction r as [|q r IH]; [reflexivity|].
  cbn [length replicate zip_with]. rewrite Qplus_0_r_eq, IH. reflexivity.
Qed.

Lemma m_add_row_zeros (o : matrix) :
  well_formed o -> m_add_row o (replicate (ncols o) 0%Q) = o.
Proof.
  destruct o as [n rows]. unfold well_formed, m_add_row; cbn [ncols mrows].
  intros Hwf. f_equal.
  induction Hwf as [|r rows Hr Hwf IH]; [reflexivity|].
  cbn [fmap list_fmap]. rewrite t_add_zeros_r_eq by exact Hr. f_equal. exact IH.
Qed.

(** A layer that is built computes [x @ w], with a bias of zeros or
    without bias, on every input of as many columns as [w] has rows. *)
Lemma Linear_call_built (d u : nat) (bias : bool) (init : nat -> nat -> Q) (x : matrix) :
  Linear_apply (Linear_build d (Linear_init u bias init)) x
  = if decide (ncols x = d)
    then Some (mm x (fill d u init), Linear_build d (Linear_init u bias init))
    else None.
Proof.
  unfold Linear_apply, Linear_build, Linear_init, Linear_call; cbn [weights units
    use_bias initializer].
  destruct (fill_shape d u init) as (Hr & Hc & Hwf).
  unfold matmul. rewrite Hr.
  destruct (decide (ncols x = d)) as [E|E]; [|reflexivity].
  cbn [fmap option_fmap option_map]. f_equal. f_equal.
  destruct bias; [|reflexivity].
  rewrite <- Hc at 2. change (ncols (fill d u init)) with (ncols (mm x (fill d u init))).
  apply m_add_row_zeros, mm_well_formed, Hwf.
Qed.

(** A fresh layer builds itself for the columns of its first input. *)
Lemma Linear_apply_fresh (u : nat) (bias : bool) (init : nat -> nat -> Q) (x : matrix) :
  Linear_apply (Linear_init u bias init) x
  = Some (mm x (fill (ncols x) u init),
          Linear_build (ncols x) (Linear_init u bias init)).
Proof.
  pose proof (Linear_call_built (ncols x) u bias init x) as H.
  rewrite decide_True in H by reflexivity. exact H.
Qed.

Lemma Stacked_init_cons (u : nat) (rest : list nat) (bias : bool)
      (init : nat -> nat -> nat -> Q) :
  Stacked_init (u :: rest) bias init
  = Linear_init u bias (init 0%nat) :: Stacked_init rest bias (λ k, init (S k)).
Proof. reflexivity. Qed.

(** The first call of a fresh stack: every layer is built in turn, the
    output is the input multiplied by the weights one after the other. *)
Lemma Stacked_call_fresh (us : list nat) (bias : bool)
      (init : nat -> nat -> nat -> Q) (x : matrix) :
  Stacked_call (Stacked_init us bias init) x
  = Some (foldl mm x (built_weights (ncols x) us init),
          built_layers (ncols x) us bias init).
Proof.
  revert init x. induction us as [|u us IH]; intros init x; [reflexivity|].
  rewrite Stacked_init_cons. cbn [Stacked_call].
  rewrite Linear_apply_fresh, IH. reflexivity.
Qed.

(** Later calls of the built stack. *)
Lemma Stacked_call_built (us : list nat) (bias : bool)
      (init : nat -> nat -> nat -> Q) (d : nat) (x : matrix) :
  ncols x = d ->
  Stacked_call (built_layers d us bias init) x
  = Some (foldl mm x (built_weights d us init), built_layers d us bias init).
Proof.
  revert init d x. induction us as [|u us IH]; intros init d x Hd; [reflexivity|].
  cbn [built_layers built_weights Stacked_call foldl].
  rewrite Linear_call_built, decide_True by exact Hd.
  rewrite IH by reflexivity. reflexivity.
Qed.

Lemma built_layers_variables (us : list nat) (bias : bool)
      (init : nat -> nat -> nat -> Q) (d : nat) :
  variable_shape <$> Stacked_variables (built_layers d us bias init)
  = built_shapes d us bias.
Proof.
  unfold Stacked_variables. revert init d.
  induction us as [|u us IH]; intros init d; [reflexivity|].
  cbn [built_layers built_shapes mbind list_bind]. rewrite fmap_app, IH.
  destruct (fill_shape d u (init 0%nat)) as (Hr & Hc & _).
  unfold Linear_variables, Linear_build, Linear_init; cbn [weights units use_bias
    initializer].
  destruct bias; cbn [fmap list_fmap variable_shape app];
    rewrite Hr, Hc, ?length_replicate; reflexivity.
Qed.

Lemma built_weights_well_formed (us : list nat) (init : nat -> nat -> nat -> Q) (d : nat) :
  Forall well_formed (built_weights d us init) /\ chained d (built_weights d us init).
Proof.
  revert init d. induction us as [|u us IH]; intros init d.
  - split; constructor.
  - cbn [built_weights chained].
    destruct (fill_shape d u (init 0%nat)) as (Hr & Hc & Hwf).
    destruct (IH (λ k, init (S k)) u) as [IH1 IH2].
    split; [constructor; assumption|]. split; [symmetry; exact Hr|].
    rewrite Hc. exact IH2.
Qed.

Lemma built_layers_weights (us : list nat) (init : nat -> nat -> nat -> Q) (d : nat) :
  Stacked_variables (built_layers d us false init) = VMatrix <$> built_weights d us init.
Proof.
  unfold Stacked_variables. revert init d.
  induction us as [|u us IH]; intros init d; [reflexivity|].
  cbn [built_layers built_weights mbind list_bind fmap list_fmap].
  rewrite IH. reflexivity.
Qed.

Lemma nrows_mm (a b : matrix) : nrows (mm a b) = nrows a.
Proof. unfold nrows, mm; cbn [mrows]. apply length_fmap. Qed.

Lemma foldl_mm_nrows (ws : list matrix) (a : matrix) :
  nrows (foldl mm a ws) = nrows a.
Proof.
  revert a. induction ws as [|w ws IH]; intros a; [reflexivity|].
  cbn [foldl]. rewrite IH. apply nrows_mm.
Qed.

Lemma last_cons_default {A} (l : list A) (a d : A) :
  List.last (a :: l) d = List.last l a.
Proof.
  revert a d. induction l as [|b l IH]; intros a d; [reflexivity|].
  change (List.last (a :: b :: l) d) with (List.last (b :: l) d).
  rewrite (IH b d), (IH b a). reflexivity.
Qed.

Lemma foldl_mm_ncols (ws : list matrix) (a : matrix) :
  ncols (foldl mm a ws) = List.last (ncols <$> ws) (ncols a).
Proof.
  revert a. induction ws as [|w ws IH]; intros a; [reflexivity|].
  cbn [foldl fmap list_fmap]. rewrite IH, last_cons_default. reflexivity.
Qed.

Lemma reduce_matmul_chain (ws : list matrix) (a : matrix) :
  chained (ncols a) ws ->
  foldl (λ acc v', acc ≫= (λ a, variable_matmul a v')) (Some (VMatrix a)) (VMatrix <$> ws)
  = Some (VMatrix (foldl mm a ws)).
Proof.
  revert a. induction ws as [|w ws IH]; intros a Hch; [reflexivity|].
  destruct Hch as [Hn Hch]. cbn [fmap list_fmap foldl mbind option_bind variable_matmul].
  rewrite matmul_Some by exact Hn. cbn [fmap option_fmap option_map].
  apply IH. exact Hch.
Qed.

Lemma built_weights_last (us : list nat) (init : nat -> nat -> nat -> Q) (d : nat) :
  List.last (ncols <$> built_weights d us init) d = List.last us d.
Proof.
  revert init d. induction us as [|u us IH]; intros init d; [reflexivity|].
  cbn [built_weights fmap list_fmap].
  rewrite !last_cons_default.
  destruct (fill_shape d u (init 0%nat)) as (_ & -> & _).
  apply IH.
Qed.

Lemma Stacked_init_variables (us : list nat) (bias : bool)
      (init : nat -> nat -> nat -> Q) :
  Stacked_variables (Stacked_init us bias init) = [].
Proof.
  revert init. induction us as [|u us IH]; intros init; [reflexivity|].
  rewrite Stacked_init_cons. exact (IH (λ k, init (S k))).
Qed.

(** Once a step of the reduction has failed, it stays failed. *)
Lemma reduce_matmul_stuck (vs : list variable) :
  foldl (λ acc v', acc ≫= (λ a, variable_matmul a v')) None vs = None.
Proof. induction vs as [|v vs IH]; [reflexivity|exact IH]. Qed.

(** X13. The reduced model of the notebook's last cell,
    [reduce(tf.matmul, model.variables)], for a stacked model of at
    least one layer.  Before the first call there is no variable and
    the reduction fails.  After the first call of a model made with
    [use_bias=False] the variables are the weight matrices, each with
    as many rows as the one before has columns: the reduction is
    defined, it is a matrix of as many rows as [x] has columns and as
    many columns as the last layer has units, and [x @ reduced_model]
    is defined and has the shape of [model(x)].  For a model made with
    [use_bias=True] the second variable is a vector, and the reduction
    fails. *)
Theorem reduced_model_is_defined
        (num_units : list nat) (init : nat -> nat -> nat -> Q) (x : matrix) :
  num_units <> [] ->
  reduce_matmul (Stacked_variables (Stacked_init num_units false init)) = None
  /\ (exists out layers reduced_model product,
        Stacked_call (Stacked_init num_units false init) x = Some (out, layers)
        /\ reduce_matmul (Stacked_variables layers) = Some (VMatrix reduced_model)
        /\ nrows reduced_model = ncols x
        /\ ncols reduced_model = List.last num_units (ncols x)
        /\ matmul x reduced_model = Some product
        /\ nrows product = nrows out
        /\ ncols product = ncols out)
  /\ (exists out layers,
        Stacked_call (Stacked_init num_units true init) x = Some (out, layers)
        /\ reduce_matmul (Stacked_variables layers) = None).
Proof.
  intros Hne.
  split; [rewrite Stacked_init_variables; reflexivity|].
  destruct num_units as [|u us]; [congruence|].
  split.
  - set (d := ncols x).
    pose proof (built_weights_well_formed (u :: us) init d) as [_ Hch].
    pose proof (built_layers_weights (u :: us) init d) as Hvars.
    pose proof (built_weights_last (u :: us) init d) as Hlast.
    remember (built_weights d (u :: us) init) as ws eqn:Ews.
    destruct ws as [|w ws]; [discriminate|].
    destruct Hch as [Hd Hch].
    cbn [fmap list_fmap] in Hlast. rewrite last_cons_default in Hlast.
    assert (Hrows : nrows (foldl mm w ws) = d)
      by (rewrite foldl_mm_nrows; symmetry; exact Hd).
    exists (foldl mm x (w :: ws)), (built_layers d (u :: us) false init),
      (foldl mm w ws), (mm x (foldl mm w ws)).
    split; [rewrite Stacked_call_fresh; fold d; rewrite <- Ews; reflexivity|].
    split.
    { rewrite Hvars. cbn [fmap list_fmap reduce_matmul].
      apply reduce_matmul_chain. exact Hch. }
    split; [exact Hrows|].
    split; [rewrite foldl_mm_ncols; exact Hlast|].
    split; [apply matmul_Some; rewrite Hrows; reflexivity|].
    split; [rewrite nrows_mm, foldl_mm_nrows; reflexivity|].
    cbn [foldl]. change (ncols (mm x (foldl mm w ws))) with (ncols (foldl mm w ws)).
    rewrite !foldl_mm_ncols. reflexivity.
  - eexists _, _. split; [apply Stacked_call_fresh|].
    unfold Stacked_variables.
    cbn [built_layers mbind list_bind Linear_variables Linear_build Linear_init
         weights units use_bias app reduce_matmul foldl option_bind variable_matmul].
    apply reduce_matmul_stuck.
Qed.

Lemma reduced_model_is_defined_witness :
  [2%nat; 1%nat] <> []
  /\ let init := λ k i j : nat, inject_Z (Z.of_nat (k + i + 2 * j)) in
     reduce_matmul (Stacked_variables (Stacked_init [2%nat; 1%nat] false init)) = None
     /\ (exists out layers reduced_model product,
           Stacked_call (Stacked_init [2%nat; 1%nat] false init) sample_a
           = Some (out, layers)
           /\ reduce_matmul (Stacked_variables layers) = Some (VMatrix reduced_model)
           /\ nrows reduced_model = ncols sample_a
           /\ ncols reduced_model = List.last [2%nat; 1%nat] (ncols sample_a)
           /\ matmul sample_a reduced_model = Some product
           /\ nrows product = nrows out
           /\ ncols product = ncols out)
     /\ (exists out layers,
           Stacked_call (Stacked_init [2%nat; 1%nat] true init) sample_a
           = Some (out, layers)
           /\ reduce_matmul (Stacked_variables layers) = None).
Proof.
  assert (H : [2%nat; 1%nat] <> []) by discriminate.
  split; [exact H|].
  exact (reduced_model_is_defined [2%nat; 1%nat]
           (λ k i j : nat, inject_Z (Z.of_nat (k + i + 2 * j))) sample_a H).
Defined.

(** The stacked model of the witness on [sample_a]: the call, and the
    product with the reduced model. *)
Example reduced_model_sample :
  let init := λ k i j : nat, inject_Z (Z.of_nat (k + i + 2 * j)) in
  Stacked_variables (built_layers 2 [2%nat; 1%nat] false init)
  = [VMatrix (Matrix 2 [[0; 2]%Q; [1; 3]%Q]); VMatrix (Matrix 1 [[1]%Q; [2]%Q])]
  /\ fst <$> Stacked_call (Stacked_init [2%nat; 1%nat] false init) sample_a
     = Some (Matrix 1 [[18 # 1]%Q])
  /\ reduce_matmul (Stacked_variables (built_layers 2 [2%nat; 1%nat] false init))
     = Some (VMatrix (Matrix 1 [[4 # 1]%Q; [7 # 1]%Q])).
Proof. vm_compute. repeat split. Qed.

Lemma m_add_scalar_zero (o : matrix) : m_add_scalar o 0 = o.
Proof.
  destruct o as [n rows]. unfold m_add_scalar; cbn [ncols mrows]. f_equal.
  induction rows as [|r rows IH]; [reflexivity|].
  cbn [fmap list_fmap]. rewrite IH. f_equal.
  clear. induction r as [|q r IH]; [reflexivity|].
  cbn [fmap list_fmap]. rewrite Qplus_0_r_eq, IH. reflexivity.
Qed.

(** X14. The bias of a new model changes nothing. The stacked model
    made with [use_bias=True] returns on its first call, and on a later
    call of the layers as [build] left them, exactly what the model
    made with [use_bias=False] returns for the same weights, since
    [build] fills every bias with zeros;
    and the model with the scalar bias [tf.Variable(0)] returns what
    the model of one weight matrix returns. *)
Theorem new_bias_changes_nothing
        (num_units : list nat) (init : nat -> nat -> nat -> Q) (w x : matrix) :
  fst <$> Stacked_call (Stacked_init num_units true init) x
  = fst <$> Stacked_call (Stacked_init num_units false init) x
  /\ fst <$> Stacked_call (built_layers (ncols x) num_units true init) x
     = fst <$> Stacked_call (built_layers (ncols x) num_units false init) x
  /\ LinearModel_bias_call w 0 x = LinearModel_call w x.
Proof.
  split; [rewrite !Stacked_call_fresh; reflexivity|].
  split; [rewrite !Stacked_call_built by reflexivity; reflexivity|].
  unfold LinearModel_bias_call, LinearModel_call.
  destruct (matmul x w) as [o|]; [|reflexivity].
  cbn [fmap option_fmap option_map]. rewrite m_add_scalar_zero. reflexivity.
Qed.

Lemma Stacked_call_mismatch (us : list nat) (bias : bool)
      (init : nat -> nat -> nat -> Q) (d : nat) (x : matrix) :
  us <> [] -> ncols x <> d ->
  Stacked_call (built_layers d us bias init) x = None.
Proof.
  intros Hne Hd. destruct us as [|u us]; [congruence|].
  cbn [built_layers Stacked_call].
  rewrite Linear_call_built, decide_False by exact Hd. reflexivity.
Qed.

(** X15. The layers are built by the first call. A new stacked model
    has no variables; its first call succeeds on every input, gives an
    output of as many rows as the input and as many columns as the
    last layer has units, and leaves variables of the shapes
    [(columns of x, units)], [(units)] with bias, layer after layer.
    Later calls keep the layers as they are: they succeed on inputs of
    the first input's column count and fail on every other input. *)
Theorem first_call_builds_the_layers
        (num_units : list nat) (bias : bool) (init : nat -> nat -> nat -> Q) (x : matrix) :
  Stacked_variables (Stacked_init num_units bias init) = []
  /\ exists out layers,
      Stacked_call (Stacked_init num_units bias init) x = Some (out, layers)
      /\ nrows out = nrows x
      /\ ncols out = List.last num_units (ncols x)
      /\ variable_shape <$> Stacked_variables layers
         = built_shapes (ncols x) num_units bias
      /\ (forall x', ncols x' = ncols x ->
            exists out', Stacked_call layers x' = Some (out', layers))
      /\ (forall x', num_units <> [] -> ncols x' <> ncols x ->
            Stacked_call layers x' = None).
Proof.
  split.
  { clear x. revert init. induction num_units as [|u us IH]; intros init; [reflexivity|].
    rewrite Stacked_init_cons. exact (IH (λ k, init (S k))). }
  exists (foldl mm x (built_weights (ncols x) num_units init)),
    (built_layers (ncols x) num_units bias init).
  split; [apply Stacked_call_fresh|].
  split; [apply foldl_mm_nrows|].
  split; [rewrite foldl_mm_ncols; apply built_weights_last|].
  split; [apply built_layers_variables|].
  split.
  - intros x' Hx'. eexists. apply Stacked_call_built. exact Hx'.
  - intros x' Hne Hx'. apply Stacked_call_mismatch; assumption.
Qed.
